(** * Transcriptgpt: the AI enrichment wrappers, the analyze route and the
      speech-recognition session, embedded from the TypeScript sources.

    - [server/services/openai.ts] and the Gemini service: the wrappers
      [analyzeTranscriptionContent], [detectLanguageFromText],
      [enhanceTranscriptionText];
    - the Express route [POST /api/ai/analyze];
    - the React hook [useSpeechRecognition]: its state cells, its refs, the
      recognizer's [onresult] handler with the variables it closes over,
      [stopRecording], [clearTranscript], [detectLanguageFromTextFallback].

    JavaScript values are modelled as the program sees them at run time:
    strings are UTF-8 byte strings, numbers are IEEE 754 binary64 values
    ([spec_float]), and the outcome of a call is either a returned value or a
    thrown error. *)

From Stdlib Require Import String Ascii List ZArith NArith Bool Lia.
From Stdlib Require Import SpecFloat DecimalString DecimalN.
Import ListNotations.

Set Warnings "-register-all".
Local Open Scope string_scope.

(* ================================================================== *)
(** * JavaScript strings *)
(* ================================================================== *)

Module JsString.

Definition code (c : ascii) : N := N_of_ascii c.

(** A byte [10xxxxxx] continues a UTF-8 sequence. *)
Definition is_continuation (c : ascii) : bool :=
  ((128 <=? code c) && (code c <? 192))%N.

Definition starts_with_continuation (s : string) : bool :=
  match s with
  | String c _ => is_continuation c
  | EmptyString => false
  end.

(** The characters (code points) of a string, each as its UTF-8 bytes:
    a byte is glued to the group after it when that group starts with a
    continuation byte. *)
Fixpoint chars (s : string) : list string :=
  match s with
  | EmptyString => []
  | String c r =>
      match chars r with
      | nxt :: rest =>
          if starts_with_continuation nxt
          then String c nxt :: rest
          else String c "" :: nxt :: rest
      | [] => [String c ""]
      end
  end.

Definition unchars (cs : list string) : string :=
  fold_right append "" cs.

(** [s.length]: the number of UTF-16 code units.  A code point outside the
    Basic Multilingual Plane (a four-byte sequence, lead byte [>= 0xF0])
    takes two units, any other one. *)
Definition char_units (ch : string) : nat :=
  match ch with
  | String c _ => if (240 <=? code c)%N then 2 else 1
  | EmptyString => 0
  end.

Definition length (s : string) : nat :=
  fold_right (fun ch n => char_units ch + n) 0 (chars s).

(** The characters matched by the regular expression class [\s], which are
    also the ones [trim] strips: TAB, LF, VT, FF, CR, SPACE, U+00A0,
    U+1680, U+2000..U+200A, U+2028, U+2029, U+202F, U+205F, U+3000,
    U+FEFF. *)
Definition is_space (ch : string) : bool :=
  match ch with
  | String c EmptyString =>
      ((9 <=? code c) && (code c <=? 13) || (code c =? 32))%N
  | String c1 (String c2 EmptyString) =>
      ((code c1 =? 194) && (code c2 =? 160))%N
  | String c1 (String c2 (String c3 EmptyString)) =>
      let a := code c1 in
      let b := code c2 in
      let d := code c3 in
      ((a =? 225) && (b =? 154) && (d =? 128)
       || (a =? 226) && (b =? 128)
          && ((128 <=? d) && (d <=? 138) || (d =? 168) || (d =? 169)
              || (d =? 175))
       || (a =? 226) && (b =? 129) && (d =? 159)
       || (a =? 227) && (b =? 128) && (d =? 128)
       || (a =? 239) && (b =? 187) && (d =? 191))%N
  | _ => false
  end.

(** [s.split(/\s+/)] on the characters of [s]: [cur] is the piece being
    read, [gap] tells that the previous character was white space. *)
Fixpoint split_go (cs : list string) (cur : string) (gap : bool)
  : list string :=
  match cs with
  | [] => [cur]
  | c :: r =>
      if is_space c
      then (if gap then split_go r cur true else cur :: split_go r "" true)
      else split_go r (cur ++ c) false
  end.

Definition split_spaces (s : string) : list string :=
  split_go (chars s) "" false.

Fixpoint drop_spaces (cs : list string) : list string :=
  match cs with
  | c :: r => if is_space c then drop_spaces r else cs
  | [] => []
  end.

(** [s.trim()] *)
Definition trim (s : string) : string :=
  unchars (rev (drop_spaces (rev (drop_spaces (chars s))))).

(** [s.toLowerCase()] on Basic Latin and the Latin-1 Supplement: [A-Z] and
    U+00C0..U+00DE (but the multiplication sign U+00D7) move up by 32;
    every other character is left as it is. *)
Definition lower_char (ch : string) : string :=
  match ch with
  | String c EmptyString =>
      if ((65 <=? code c) && (code c <=? 90))%N
      then String (ascii_of_N (code c + 32)) ""
      else ch
  | String c1 (String c2 EmptyString) =>
      if ((code c1 =? 195) && (128 <=? code c2) && (code c2 <=? 158)
          && negb (code c2 =? 151))%N
      then String c1 (String (ascii_of_N (code c2 + 32)) "")
      else ch
  | _ => ch
  end.

Definition toLowerCase (s : string) : string :=
  unchars (map lower_char (chars s)).

(** [xs.includes(w)] on an array of strings *)
Definition includes (xs : list string) (w : string) : bool :=
  existsb (String.eqb w) xs.

End JsString.

(* ================================================================== *)
(** * JavaScript numbers: IEEE 754 binary64 *)
(* ================================================================== *)

Module JsNumber.

Definition number := spec_float.

Definition prec : Z := 53.
Definition emax : Z := 1024.

Definition nan : number := S754_nan.
Definition zero : number := S754_zero false.
Definition one : number := S754_finite false 4503599627370496 (-52).

(** The decimal constants of the sources, as the doubles they denote
    (mantissa and binary exponent). *)
Definition c_0_5 : number := S754_finite false 4503599627370496 (-53).
Definition c_0_8 : number := S754_finite false 7205759403792794 (-53).
Definition c_0_98 : number := S754_finite false 8827055269646172 (-53).
Definition c_0_85 : number := S754_finite false 7656119366529843 (-53).
Definition c_0_82 : number := S754_finite false 7385903388887613 (-53).
Definition c_0_79 : number := S754_finite false 7115687411245384 (-53).
Definition c_1_5 : number := S754_finite false 6755399441055744 (-52).

Definition is_nan (x : number) : bool :=
  match x with S754_nan => true | _ => false end.

Definition is_zero (x : number) : bool :=
  match x with S754_zero _ => true | _ => false end.

(** [Math.min(a, b)] and [Math.max(a, b)] on numbers: NaN if either
    argument is NaN, and [-0] counts as smaller than [+0]. *)
Definition Math_min (a b : number) : number :=
  match SFcompare a b with
  | None => nan
  | Some Lt => a
  | Some Gt => b
  | Some Eq => match a with S754_zero true => a | _ => b end
  end.

Definition Math_max (a b : number) : number :=
  match SFcompare a b with
  | None => nan
  | Some Lt => b
  | Some Gt => a
  | Some Eq => match a with S754_zero false => a | _ => b end
  end.

(** [0 <= x <= 1] *)
Definition in_unit (x : number) : bool :=
  SFleb zero x && SFleb x one.

(** The double nearest to [m * 10^e] (ties to even), negated when [neg]. *)
Definition of_decimal (neg : bool) (m e : Z) : number :=
  match m with
  | Z0 => S754_zero neg
  | Zpos p =>
      if (0 <=? e)%Z
      then binary_normalize prec emax
             (if neg then - (m * 10 ^ e) else m * 10 ^ e)%Z 0 neg
      else SFdiv prec emax (S754_finite neg p 0)
             (S754_finite false (Z.to_pos (10 ^ (- e))) 0)
  | Zneg _ => nan
  end.

Import JsString.

Definition digit_of (radix : Z) (c : ascii) : option Z :=
  let a := Z.of_N (code c) in
  let v :=
    (if (48 <=? a) && (a <=? 57) then a - 48
     else if (97 <=? a) && (a <=? 102) then a - 87
     else if (65 <=? a) && (a <=? 70) then a - 55
     else 99)%Z in
  if (v <? radix)%Z then Some v else None.

(** Reads the longest prefix of decimal digits: the value accumulated on
    [acc], the number of digits read added to [n], and the rest. *)
Fixpoint read_digits (s : string) (acc n : Z) : Z * Z * string :=
  match s with
  | String c r =>
      match digit_of 10 c with
      | Some d => read_digits r (10 * acc + d)%Z (n + 1)%Z
      | None => (acc, n, s)
      end
  | EmptyString => (acc, n, s)
  end.

(** A whole string of digits in [radix]; [None] if another character
    occurs. *)
Fixpoint read_radix (radix : Z) (s : string) (acc : Z) : option Z :=
  match s with
  | String c r =>
      match digit_of radix c with
      | Some d => read_radix radix r (radix * acc + d)%Z
      | None => None
      end
  | EmptyString => Some acc
  end.

(** An optional exponent part [e[+-]digits]; [None] when it is cut short. *)
Definition read_exponent (s : string) : option (Z * string) :=
  match s with
  | String c r =>
      if ((code c =? 101) || (code c =? 69))%N
      then
        let '(neg, r1) :=
          match r with
          | String "+"%char r' => (false, r')
          | String "-"%char r' => (true, r')
          | _ => (false, r)
          end in
        let '(v, n, r2) := read_digits r1 0 0 in
        if (n =? 0)%Z then None
        else Some ((if neg then - v else v)%Z, r2)
      else Some (0%Z, s)
  | EmptyString => Some (0%Z, s)
  end.

(** StrUnsignedDecimalLiteral: [Infinity], [d.d?e?], [.de?] or [de?]. *)
Definition unsigned_decimal (neg : bool) (s : string) : number :=
  if String.eqb s "Infinity" then S754_infinity neg
  else
    let '(i, ni, r1) := read_digits s 0 0 in
    let '(m, nf, r2) :=
      match r1 with
      | String "."%char r => read_digits r i 0
      | _ => (i, 0%Z, r1)
      end in
    if (ni + nf =? 0)%Z then nan
    else
      match read_exponent r2 with
      | Some (e, EmptyString) => of_decimal neg m (e - nf)
      | _ => nan
      end.

Definition radix_literal (radix : Z) (s : string) : number :=
  match s with
  | EmptyString => nan
  | _ =>
      match read_radix radix s 0 with
      | Some v => of_decimal false v 0
      | None => nan
      end
  end.

(** ECMAScript's StringToNumber: white space is trimmed, the empty
    string is [+0], and a text that is no numeric literal is NaN.  A
    decimal literal is rounded to the nearest double. *)
Definition StringToNumber (s : string) : number :=
  match trim s with
  | EmptyString => zero
  | String "0"%char (String c r) as t =>
      if ((code c =? 120) || (code c =? 88))%N then radix_literal 16 r
      else if ((code c =? 111) || (code c =? 79))%N then radix_literal 8 r
      else if ((code c =? 98) || (code c =? 66))%N then radix_literal 2 r
      else unsigned_decimal false t
  | String "+"%char r => unsigned_decimal false r
  | String "-"%char r => unsigned_decimal true r
  | t => unsigned_decimal false t
  end.

End JsNumber.

(* ================================================================== *)
(** * JavaScript values, as [JSON.parse] and property reads produce them *)
(* ================================================================== *)

Module JsValue.
Import JsNumber.

Inductive value : Type :=
| VUndefined
| VNull
| VBool (b : bool)
| VNum (x : number)
| VStr (s : string)
| VArr (items : list value)
| VObj (props : list (string * value)).

(** An [Error] object, by its message. *)
Record error : Type := Error { message : string }.

(** What evaluating an expression or awaiting a promise gives. *)
Inductive outcome (A : Type) : Type :=
| Return (a : A)
| Throw (e : error).
Arguments Return {A} a.
Arguments Throw {A} e.

Definition bind {A B} (m : outcome A) (k : A -> outcome B) : outcome B :=
  match m with
  | Return a => k a
  | Throw e => Throw e
  end.

(** [try { body } catch (error) { handler }] *)
Definition try_catch {A} (body : outcome A) (handler : error -> outcome A)
  : outcome A :=
  match body with
  | Return a => Return a
  | Throw e => handler e
  end.

Definition ToBoolean (v : value) : bool :=
  match v with
  | VUndefined | VNull => false
  | VBool b => b
  | VNum x => negb (is_zero x || is_nan x)
  | VStr s => negb (String.eqb s "")
  | VArr _ | VObj _ => true
  end.

(** [a || b] *)
Definition or_else (a b : value) : value :=
  if ToBoolean a then a else b.

(** ToNumber.  A plain object prints as ["[object Object]"], which is no
    numeric literal.  An array is printed by joining its elements with
    commas and the text is read back: the empty array gives the empty
    text, two or more elements give a text with a comma, and a single
    element gives its own text, where [null] and [undefined] print as
    the empty text, a number prints as digits that read back as the same
    number ([-0] prints as ["0"]), and a boolean prints as [true] or
    [false]. *)
Fixpoint ToNumber (v : value) : number :=
  match v with
  | VUndefined => nan
  | VNull => zero
  | VBool b => if b then one else zero
  | VNum x => x
  | VStr s => StringToNumber s
  | VObj _ => nan
  | VArr [] => zero
  | VArr [x] =>
      match x with
      | VUndefined | VNull => zero
      | VNum n => if is_zero n then zero else n
      | VStr s => StringToNumber s
      | VBool _ | VObj _ => nan
      | VArr _ => ToNumber x
      end
  | VArr _ => nan
  end.

Fixpoint lookup (key : string) (props : list (string * value)) : value :=
  match props with
  | [] => VUndefined
  | (k, v) :: rest => if String.eqb k key then v else lookup key rest
  end.

(** [v.key], for the property names the program reads ([answer],
    [confidence], [relatedTopics], [language], [languageCode],
    [enhancedText], [corrections], [transcription], [question]), none of
    which a prototype supplies: reading from [null] or [undefined] throws
    a TypeError, an object gives its own property, any other value gives
    [undefined]. *)
Definition get (v : value) (key : string) : outcome value :=
  match v with
  | VUndefined | VNull =>
      Throw (Error ("Cannot read properties of null (reading '"
                      ++ key ++ "')"))
  | VObj props => Return (lookup key props)
  | _ => Return VUndefined
  end.

(** [Array.isArray(v) ? v : []], as the list of elements *)
Definition array_or_empty (v : value) : list value :=
  match v with
  | VArr items => items
  | _ => []
  end.

End JsValue.

(* ================================================================== *)
(** * The AI enrichment wrappers *)
(* ================================================================== *)

Module Upstream.
Import JsValue.

(** What [JSON.parse] makes of a text: a SyntaxError or a value. *)
Inductive parsed : Type :=
| SyntaxError (e : error)
| Json (v : value).

(** The text of the model's reply: [Empty] is [null], [undefined] or the
    empty string (the falsy contents); a non-empty text is given by what
    [JSON.parse] makes of it. *)
Inductive content : Type :=
| Empty
| Text (p : parsed).

(** What the provider call gives the wrapper: the awaited call rejects;
    or the response has no first choice or message to read the content
    from (reading it throws a TypeError); or there is a content. *)
Inductive reply : Type :=
| Rejected (e : error)
| NoMessage (e : error)
| Content (c : content).

Definition JSON_parse (p : parsed) : outcome value :=
  match p with
  | SyntaxError e => Throw e
  | Json v => Return v
  end.

(** A request sent to the provider: the model and the values
    interpolated into the prompt. *)
Record provider_call : Type :=
  Call { model : string; inputs : list value }.

End Upstream.

Module Results.
Import JsNumber JsValue.

Record AnalysisResult : Type := mkAnalysis {
  answer : value;
  a_confidence : number;
  relatedTopics : list value
}.

Record Detection : Type := mkDetection {
  language : value;
  d_confidence : number;
  languageCode : value
}.

Record Enhancement : Type := mkEnhancement {
  enhancedText : value;
  corrections : list value;
  e_confidence : number
}.

(** [Math.max(0, Math.min(1, v || dflt))] *)
Definition clamp_confidence (v : value) (dflt : number) : number :=
  Math_max zero (Math_min one (ToNumber (or_else v (VNum dflt)))).

End Results.

(** [server/services/openai.ts] *)
Module OpenAI.
Import JsNumber JsValue Upstream Results.

(** [JSON.parse(response.choices[0].message.content || "{}")], after the
    awaited [openai.chat.completions.create] call. *)
Definition parse_reply (r : reply) : outcome value :=
  match r with
  | Rejected e => Throw e
  | NoMessage e => Throw e
  | Content Empty => Return (VObj [])
  | Content (Text p) => JSON_parse p
  end.

Definition enhanceTranscriptionText (text targetLanguage : value)
  (r : reply) : outcome Enhancement :=
  try_catch
    (bind (parse_reply r) (fun result =>
     bind (get result "enhancedText") (fun enhanced =>
     bind (get result "corrections") (fun corr =>
     bind (get result "confidence") (fun conf =>
     Return {| enhancedText := or_else enhanced text;
               corrections := array_or_empty corr;
               e_confidence := clamp_confidence conf c_0_8 |})))))
    (fun _ =>
       Return {| enhancedText := text;
                 corrections := [];
                 e_confidence := c_0_5 |}).

Definition analyzeTranscriptionContent (transcription question : value)
  (r : reply) : outcome AnalysisResult :=
  try_catch
    (bind (parse_reply r) (fun result =>
     bind (get result "answer") (fun ans =>
     bind (get result "confidence") (fun conf =>
     bind (get result "relatedTopics") (fun topics =>
     Return {| answer :=
                 or_else ans
                   (VStr "Não foi possível gerar uma resposta baseada no conteúdo transcrito.");
               a_confidence := clamp_confidence conf c_0_5;
               relatedTopics := array_or_empty topics |})))))
    (fun e =>
       Throw (Error ("Falha ao analisar conteúdo: " ++ message e))).

Definition detectLanguageFromText (text : value) (r : reply)
  : outcome Detection :=
  try_catch
    (bind (parse_reply r) (fun result =>
     bind (get result "language") (fun lang =>
     bind (get result "confidence") (fun conf =>
     bind (get result "languageCode") (fun code =>
     Return {| language := or_else lang (VStr "Não identificado");
               d_confidence := clamp_confidence conf c_0_5;
               languageCode := or_else code (VStr "unknown") |})))))
    (fun _ =>
       Return {| language := VStr "Erro na detecção";
                 d_confidence := zero;
                 languageCode := VStr "unknown" |}).

(** The request [analyzeTranscriptionContent] sends first of all. *)
Definition analyze_call (transcription question : value) : provider_call :=
  {| model := "gpt-4"; inputs := [transcription; question] |}.

(** The request of [enhanceTranscriptionText]; the parameter
    [targetLanguage] defaults to ["pt-BR"] when it is [undefined]. *)
Definition enhance_call (text targetLanguage : value) : provider_call :=
  {| model := "gpt-4";
     inputs := [match targetLanguage with
                | VUndefined => VStr "pt-BR"
                | _ => targetLanguage
                end; text] |}.

End OpenAI.

(** The Gemini service: the same wrappers over [response.text()]. *)
Module Gemini.
Import JsNumber JsValue Upstream Results.

(** [const rawJson = response.text(); if (rawJson) JSON.parse(rawJson)
    else throw new Error("Resposta vazia do modelo")] *)
Definition parse_reply (r : reply) : outcome value :=
  match r with
  | Rejected e => Throw e
  | NoMessage e => Throw e
  | Content Empty => Throw (Error "Resposta vazia do modelo")
  | Content (Text p) => JSON_parse p
  end.

Definition detectLanguageFromText (text : value) (r : reply)
  : outcome Detection :=
  try_catch
    (bind (parse_reply r) (fun data =>
     bind (get data "language") (fun lang =>
     bind (get data "confidence") (fun conf =>
     bind (get data "languageCode") (fun code =>
     Return {| language := or_else lang (VStr "Não identificado");
               d_confidence := clamp_confidence conf c_0_5;
               languageCode := or_else code (VStr "unknown") |})))))
    (fun _ =>
       Return {| language := VStr "Erro na detecção";
                 d_confidence := zero;
                 languageCode := VStr "unknown" |}).

Definition enhanceTranscriptionText (text targetLanguage : value)
  (r : reply) : outcome Enhancement :=
  try_catch
    (bind (parse_reply r) (fun data =>
     bind (get data "enhancedText") (fun enhanced =>
     bind (get data "corrections") (fun corr =>
     bind (get data "confidence") (fun conf =>
     Return {| enhancedText := or_else enhanced text;
               corrections := array_or_empty corr;
               e_confidence := clamp_confidence conf c_0_8 |})))))
    (fun _ =>
       Return {| enhancedText := text;
                 corrections := [];
                 e_confidence := c_0_5 |}).

End Gemini.

(* ================================================================== *)
(** * The route [POST /api/ai/analyze] *)
(* ================================================================== *)

Module Routes.
Import JsNumber JsValue Upstream Results.

Record response : Type := Response { status : nat; body : value }.

Definition message_body (m : value) : value := VObj [("message", m)].

Definition analysis_body (a : AnalysisResult) : value :=
  VObj [("answer", answer a);
        ("confidence", VNum (a_confidence a));
        ("relatedTopics", VArr (relatedTopics a))].

(** The handler, on the request body as the JSON body parser leaves it
    (an object, given by its properties) and on what the provider would
    reply.  It gives the response and the requests sent to the provider.
    [res.json] without [res.status] answers 200. *)
Definition post_ai_analyze (req_body : list (string * value)) (r : reply)
  : response * list provider_call :=
  let transcription := lookup "transcription" req_body in
  let question := lookup "question" req_body in
  if negb (ToBoolean transcription) || negb (ToBoolean question)
  then
    ({| status := 400;
        body := message_body (VStr "Transcrição e pergunta são obrigatórias") |},
     [])
  else
    match OpenAI.analyzeTranscriptionContent transcription question r with
    | Return analysis =>
        ({| status := 200; body := analysis_body analysis |},
         [OpenAI.analyze_call transcription question])
    | Throw e =>
        ({| status := 500;
            body := message_body
                      (or_else (VStr (message e))
                               (VStr "Falha na análise de IA")) |},
         [OpenAI.analyze_call transcription question])
    end.

End Routes.

(* ================================================================== *)
(** * The recognition session: the hook [useSpeechRecognition] *)
(* ================================================================== *)

Module Session.
Import JsNumber JsValue.

(** Identifiers of interval timers, as [setInterval] returns them in a
    browser: positive integers. *)
Definition timer := positive.

(** The recognizer object [initializeRecognition] builds.  Its handlers
    are closures of the render in which it was built: besides [lang] it
    holds the values of [transcript], [currentLanguage] and
    [enhancedMode] that [onresult] reads. *)
Record recognition : Type := Recognition {
  lang : string;
  seen_transcript : string;
  seen_currentLanguage : string;
  seen_enhancedMode : bool
}.

(** The state cells of the hook ([useState]), its refs ([useRef]) and
    the page's running interval timers. *)
Record session : Type := mkSession {
  isRecording : bool;
  transcript : string;
  detectedLanguage : value;
  confidence : value;
  audioLevel : number;
  recordingTime : N;
  wordCount : nat;
  languageCount : N;
  currentLanguage : string;
  enhancedMode : bool;
  detectedLanguages : list value;
  recognitionRef : option recognition;
  timeIntervalRef : option timer;
  audioLevelIntervalRef : option timer;
  intervals : list timer;
  next_timer : timer
}.

(** The initial values given to [useState] and [useRef]. *)
Definition initial : session :=
  {| isRecording := false;
     transcript := "";
     detectedLanguage := VStr "Português (BR)";
     confidence := VNum c_0_98;
     audioLevel := zero;
     recordingTime := 0%N;
     wordCount := 0;
     languageCount := 1%N;
     currentLanguage := "pt-BR";
     enhancedMode := true;
     detectedLanguages := [VStr "pt-BR"];
     recognitionRef := None;
     timeIntervalRef := None;
     audioLevelIntervalRef := None;
     intervals := [];
     next_timer := 1%positive |}.

(** ** The setters *)

Definition setIsRecording (v : bool) (s : session) : session :=
  mkSession v (transcript s) (detectedLanguage s) (confidence s)
    (audioLevel s) (recordingTime s) (wordCount s) (languageCount s)
    (currentLanguage s) (enhancedMode s) (detectedLanguages s)
    (recognitionRef s) (timeIntervalRef s) (audioLevelIntervalRef s)
    (intervals s) (next_timer s).

Definition setTranscript (v : string) (s : session) : session :=
  mkSession (isRecording s) v (detectedLanguage s) (confidence s)
    (audioLevel s) (recordingTime s) (wordCount s) (languageCount s)
    (currentLanguage s) (enhancedMode s) (detectedLanguages s)
    (recognitionRef s) (timeIntervalRef s) (audioLevelIntervalRef s)
    (intervals s) (next_timer s).

Definition setDetectedLanguage (v : value) (s : session) : session :=
  mkSession (isRecording s) (transcript s) v (confidence s)
    (audioLevel s) (recordingTime s) (wordCount s) (languageCount s)
    (currentLanguage s) (enhancedMode s) (detectedLanguages s)
    (recognitionRef s) (timeIntervalRef s) (audioLevelIntervalRef s)
    (intervals s) (next_timer s).

Definition setConfidence (v : value) (s : session) : session :=
  mkSession (isRecording s) (transcript s) (detectedLanguage s) v
    (audioLevel s) (recordingTime s) (wordCount s) (languageCount s)
    (currentLanguage s) (enhancedMode s) (detectedLanguages s)
    (recognitionRef s) (timeIntervalRef s) (audioLevelIntervalRef s)
    (intervals s) (next_timer s).

Definition setAudioLevel (v : number) (s : session) : session :=
  mkSession (isRecording s) (transcript s) (detectedLanguage s)
    (confidence s) v (recordingTime s) (wordCount s) (languageCount s)
    (currentLanguage s) (enhancedMode s) (detectedLanguages s)
    (recognitionRef s) (timeIntervalRef s) (audioLevelIntervalRef s)
    (intervals s) (next_timer s).

Definition setRecordingTime (v : N) (s : session) : session :=
  mkSession (isRecording s) (transcript s) (detectedLanguage s)
    (confidence s) (audioLevel s) v (wordCount s) (languageCount s)
    (currentLanguage s) (enhancedMode s) (detectedLanguages s)
    (recognitionRef s) (timeIntervalRef s) (audioLevelIntervalRef s)
    (intervals s) (next_timer s).

Definition setWordCount (v : nat) (s : session) : session :=
  mkSession (isRecording s) (transcript s) (detectedLanguage s)
    (confidence s) (audioLevel s) (recordingTime s) v (languageCount s)
    (currentLanguage s) (enhancedMode s) (detectedLanguages s)
    (recognitionRef s) (timeIntervalRef s) (audioLevelIntervalRef s)
    (intervals s) (next_timer s).

Definition setLanguageCount (v : N) (s : session) : session :=
  mkSession (isRecording s) (transcript s) (detectedLanguage s)
    (confidence s) (audioLevel s) (recordingTime s) (wordCount s) v
    (currentLanguage s) (enhancedMode s) (detectedLanguages s)
    (recognitionRef s) (timeIntervalRef s) (audioLevelIntervalRef s)
    (intervals s) (next_timer s).

Definition setCurrentLanguage (v : string) (s : session) : session :=
  mkSession (isRecording s) (transcript s) (detectedLanguage s)
    (confidence s) (audioLevel s) (recordingTime s) (wordCount s)
    (languageCount s) v (enhancedMode s) (detectedLanguages s)
    (recognitionRef s) (timeIntervalRef s) (audioLevelIntervalRef s)
    (intervals s) (next_timer s).

Definition setEnhancedMode (v : bool) (s : session) : session :=
  mkSession (isRecording s) (transcript s) (detectedLanguage s)
    (confidence s) (audioLevel s) (recordingTime s) (wordCount s)
    (languageCount s) (currentLanguage s) v (detectedLanguages s)
    (recognitionRef s) (timeIntervalRef s) (audioLevelIntervalRef s)
    (intervals s) (next_timer s).

Definition setDetectedLanguages (v : list value) (s : session) : session :=
  mkSession (isRecording s) (transcript s) (detectedLanguage s)
    (confidence s) (audioLevel s) (recordingTime s) (wordCount s)
    (languageCount s) (currentLanguage s) (enhancedMode s) v
    (recognitionRef s) (timeIntervalRef s) (audioLevelIntervalRef s)
    (intervals s) (next_timer s).

Definition setRecognitionRef (v : option recognition) (s : session)
  : session :=
  mkSession (isRecording s) (transcript s) (detectedLanguage s)
    (confidence s) (audioLevel s) (recordingTime s) (wordCount s)
    (languageCount s) (currentLanguage s) (enhancedMode s)
    (detectedLanguages s) v (timeIntervalRef s) (audioLevelIntervalRef s)
    (intervals s) (next_timer s).

Definition setTimeIntervalRef (v : option timer) (s : session) : session :=
  mkSession (isRecording s) (transcript s) (detectedLanguage s)
    (confidence s) (audioLevel s) (recordingTime s) (wordCount s)
    (languageCount s) (currentLanguage s) (enhancedMode s)
    (detectedLanguages s) (recognitionRef s) v (audioLevelIntervalRef s)
    (intervals s) (next_timer s).

Definition setAudioLevelIntervalRef (v : option timer) (s : session)
  : session :=
  mkSession (isRecording s) (transcript s) (detectedLanguage s)
    (confidence s) (audioLevel s) (recordingTime s) (wordCount s)
    (languageCount s) (currentLanguage s) (enhancedMode s)
    (detectedLanguages s) (recognitionRef s) (timeIntervalRef s) v
    (intervals s) (next_timer s).

Definition setIntervals (v : list timer) (s : session) : session :=
  mkSession (isRecording s) (transcript s) (detectedLanguage s)
    (confidence s) (audioLevel s) (recordingTime s) (wordCount s)
    (languageCount s) (currentLanguage s) (enhancedMode s)
    (detectedLanguages s) (recognitionRef s) (timeIntervalRef s)
    (audioLevelIntervalRef s) v (next_timer s).

Definition setNextTimer (v : timer) (s : session) : session :=
  mkSession (isRecording s) (transcript s) (detectedLanguage s)
    (confidence s) (audioLevel s) (recordingTime s) (wordCount s)
    (languageCount s) (currentLanguage s) (enhancedMode s)
    (detectedLanguages s) (recognitionRef s) (timeIntervalRef s)
    (audioLevelIntervalRef s) (intervals s) v.

(** ** What a handler does besides updating the state *)

Inductive effect : Type :=
| Toast (title description : string) (destructive : bool)
| DetectLanguage (text : string)
| EnhanceText (text targetLanguage : string)
| RecognizerStart
| RecognizerStop
| ConsoleError.

(** [clearInterval(id)] and [setInterval(...)] on the page's timers *)
Definition clearInterval (id : timer) (s : session) : session :=
  setIntervals (filter (fun t => negb (Pos.eqb t id)) (intervals s)) s.

Definition setInterval (s : session) : timer * session :=
  (next_timer s,
   setNextTimer (Pos.succ (next_timer s))
     (setIntervals (next_timer s :: intervals s) s)).

(** [updateWordCount(text)] *)
Definition count_words (text : string) : nat :=
  List.length
    (filter (fun word => Nat.ltb 0 (JsString.length word))
            (JsString.split_spaces (JsString.trim text))).

Definition updateWordCount (text : string) (s : session) : session :=
  setWordCount (count_words text) s.

(** ** [detectLanguageFromTextFallback] *)

Definition portugueseWords : list string :=
  ["que"; "não"; "uma"; "para"; "com"; "está"; "tem"; "mais"].
Definition englishWords : list string :=
  ["the"; "and"; "is"; "to"; "it"; "you"; "that"; "this"].
Definition spanishWords : list string :=
  ["que"; "de"; "el"; "la"; "en"; "y"; "es"; "se"].

(** The three counters after the [forEach] over the words *)
Definition score (table words : list string) : nat :=
  fold_left
    (fun n word => if JsString.includes table word then S n else n)
    words 0.

Definition detectLanguageFromTextFallback (text : string) (s : session)
  : session :=
  let words := JsString.split_spaces (JsString.toLowerCase text) in
  let ptScore := score portugueseWords words in
  let enScore := score englishWords words in
  let esScore := score spanishWords words in
  if ((enScore <? ptScore) && (esScore <? ptScore))%nat then
    setConfidence (VNum c_0_85)
      (setCurrentLanguage "pt-BR"
         (setDetectedLanguage (VStr "Português (BR)") s))
  else if ((ptScore <? enScore) && (esScore <? enScore))%nat then
    setConfidence (VNum c_0_82)
      (setCurrentLanguage "en-US"
         (setDetectedLanguage (VStr "English (US)") s))
  else if ((ptScore <? esScore) && (enScore <? esScore))%nat then
    setConfidence (VNum c_0_79)
      (setCurrentLanguage "es-ES"
         (setDetectedLanguage (VStr "Español (ES)") s))
  else s.

(** ** The recognizer's events *)

(** One entry of [event.results]: the transcript of its first
    alternative and its [isFinal] flag. *)
Record result : Type := Result { part : string; isFinal : bool }.

Record event : Type := Event { resultIndex : nat; results : list result }.

(** The loop of [onresult] from [resultIndex] on: the finalized and the
    interim text of the event. *)
Fixpoint collect (rs : list result) (finalT interimT : string)
  : string * string :=
  match rs with
  | [] => (finalT, interimT)
  | r :: rest =>
      if isFinal r
      then collect rest (finalT ++ part r) interimT
      else collect rest finalT (interimT ++ part r)
  end.

Definition finalTranscript (ev : event) : string :=
  fst (collect (skipn (resultIndex ev) (results ev)) "" "").

Definition interimTranscript (ev : event) : string :=
  snd (collect (skipn (resultIndex ev) (results ev)) "" "").

(** The enrichment requests [onresult] fires. *)
Definition enrichment (rec : recognition) (finalT : string) : list effect :=
  if negb (String.eqb finalT "")
  then DetectLanguage finalT
         :: (if seen_enhancedMode rec && Nat.ltb 20 (JsString.length finalT)
             then [EnhanceText finalT (seen_currentLanguage rec)]
             else [])
  else [].

(** [recognition.onresult], of the recognizer [rec]: [transcript],
    [currentLanguage] and [enhancedMode] are the values the handler closed
    over when [rec] was built. *)
Definition onresult (rec : recognition) (ev : event) (s : session)
  : session * list effect :=
  let fullTranscript :=
    seen_transcript rec ++ finalTranscript ev ++ interimTranscript ev in
  (updateWordCount fullTranscript (setTranscript fullTranscript s),
   enrichment rec (finalTranscript ev)).

Definition onstart (s : session) : session * list effect :=
  (setIsRecording true s,
   [Toast "Gravação Iniciada" "Começando a transcrição em tempo real"
      false]).

(** [recognition.onerror], on whether [event.error] is ['aborted'] *)
Definition onerror (aborted : bool) (s : session) : session * list effect :=
  (setIsRecording false s,
   ConsoleError
     :: (if aborted then []
         else [Toast "Erro na Gravação" "Falha no reconhecimento de voz"
                 true])).

Definition clear_if_set (r : option timer) (s : session) : session :=
  match r with
  | Some id => clearInterval id s
  | None => s
  end.

Definition onend (s : session) : session :=
  clear_if_set (audioLevelIntervalRef s)
    (clear_if_set (timeIntervalRef s) (setIsRecording false s)).

(** ** The commands *)

(** [initializeRecognition], when the browser has a recognizer *)
Definition initializeRecognition (s : session) : recognition :=
  {| lang := currentLanguage s;
     seen_transcript := transcript s;
     seen_currentLanguage := currentLanguage s;
     seen_enhancedMode := enhancedMode s |}.

(** [startRecording], on whether the browser supports recognition.  The
    recognizer is new, so that its [start()] does not throw; the two
    [setInterval] calls give the timers of the elapsed time and of the
    audio level. *)
Definition startRecording (supported : bool) (s : session)
  : session * list effect :=
  if supported then
    let s1 := setRecognitionRef (Some (initializeRecognition s)) s in
    let s2 := setRecordingTime 0%N s1 in
    let '(t1, s3) := setInterval s2 in
    let s4 := setTimeIntervalRef (Some t1) s3 in
    let '(t2, s5) := setInterval s4 in
    (setAudioLevelIntervalRef (Some t2) s5, [RecognizerStart])
  else
    (s, [Toast "Não Suportado"
           "Seu navegador não suporta reconhecimento de voz" true]).

Definition stopRecording (s : session) : session * list effect :=
  let s1 := setRecognitionRef None s in
  let s2 := setTimeIntervalRef None (clear_if_set (timeIntervalRef s1) s1) in
  let s3 :=
    setAudioLevelIntervalRef None
      (clear_if_set (audioLevelIntervalRef s2) s2) in
  (setAudioLevel zero s3,
   ((match recognitionRef s with
     | Some _ => [RecognizerStop]
     | None => []
     end)
    ++ [Toast "Gravação Finalizada" "Transcrição salva com sucesso"
          false])%list).

Definition clearTranscript (s : session) : session :=
  setDetectedLanguages [VStr "pt-BR"]
    (setConfidence (VNum c_0_98)
       (setDetectedLanguage (VStr "Português (BR)")
          (setLanguageCount 1%N
             (setRecordingTime 0%N
                (setWordCount 0
                   (setTranscript "" s)))))).

Definition toggleEnhancedMode (s : session) : session * list effect :=
  (setEnhancedMode (negb (enhancedMode s)) s,
   [if enhancedMode s
    then Toast "Modo Avançado Desativado"
           "Usando apenas transcrição básica" false
    else Toast "Modo Avançado Ativado"
           "Usando IA para melhorar a transcrição" false]).

(** The [onSuccess] callback of the enhancement request, on the
    [enhancedText] of the response ([None] when the field is absent) and
    on the [transcript] the callback closed over. *)
Definition enhance_onSuccess (seen : string) (enhancedText : option string)
  (s : session) : session :=
  match enhancedText with
  | Some t =>
      if negb (String.eqb t "") && negb (String.eqb t seen)
      then updateWordCount t (setTranscript t s)
      else s
  | None => s
  end.

(** The session after a sequence of result events of one recognizer. *)
Fixpoint run_results (rec : recognition) (evs : list event) (s : session)
  : session :=
  match evs with
  | [] => s
  | ev :: rest => run_results rec rest (fst (onresult rec ev s))
  end.

End Session.

(* ================================================================== *)
(** * Vocabulary of the properties *)
(* ================================================================== *)

Module Props.
Import JsNumber JsValue Upstream Results.

(** A reply the wrappers cannot read a result object from: the call
    fails, the response has no message, the text is no JSON, or the JSON
    is [null]. *)
Definition malformed (r : reply) : bool :=
  match r with
  | Rejected _ | NoMessage _ => true
  | Content (Text (SyntaxError _)) => true
  | Content (Text (Json VNull)) => true
  | Content (Text (Json VUndefined)) => true
  | _ => false
  end.

(** The object a well-formed reply carries. *)
Definition object_reply (props : list (string * value)) : reply :=
  Content (Text (Json (VObj props))).

(** A confidence that is a number (not NaN), [null] or absent. *)
Definition numeric_or_missing (v : value) : bool :=
  match v with
  | VUndefined | VNull => true
  | VNum x => negb (is_nan x)
  | _ => false
  end.

(** The results of the [catch] blocks and of an empty object. *)
Definition error_detection : Detection :=
  {| language := VStr "Erro na detecção";
     d_confidence := zero;
     languageCode := VStr "unknown" |}.

Definition unidentified_detection (c : number) : Detection :=
  {| language := VStr "Não identificado";
     d_confidence := c;
     languageCode := VStr "unknown" |}.

Definition unchanged_text (text : value) (c : number) : Enhancement :=
  {| enhancedText := text; corrections := []; e_confidence := c |}.

Definition no_answer : value :=
  VStr "Não foi possível gerar uma resposta baseada no conteúdo transcrito.".

(** The value a wrapper reads as [result.confidence] from a reply, given
    how it parses the reply; [undefined] when nothing can be read. *)
Definition confidence_read (parse : reply -> outcome value) (r : reply)
  : value :=
  match bind (parse r) (fun result => get result "confidence") with
  | Return c => c
  | Throw _ => VUndefined
  end.

(** A reply whose text is not JSON. *)
Definition not_json : reply :=
  Content (Text (SyntaxError (Error "Unexpected token o in JSON at position 1"))).

End Props.

(* ================================================================== *)
(** * The other provider wrappers of [server/services/openai.ts] *)
(* ================================================================== *)

Module Summary.
Import JsValue Upstream.

(** What the chat completion gives [generateSummary]: the awaited call
    rejects, the response has no first choice or message, or the message
    has a content, a string or [null]. *)
Inductive completion : Type :=
| CallFails (e : error)
| NoChoice (e : error)
| Message (content : option string).

(** [content || fallback] on a content that is a string or [null] *)
Definition text_or (content : option string) (fallback : string) : string :=
  match content with
  | Some t => if String.eqb t "" then fallback else t
  | None => fallback
  end.

Definition generateSummary (transcription : value) (c : completion)
  : outcome string :=
  try_catch
    (match c with
     | CallFails e => Throw e
     | NoChoice e => Throw e
     | Message content =>
         Return (text_or content "Não foi possível gerar um resumo.")
     end)
    (fun e => Throw (Error ("Falha ao gerar resumo: " ++ message e))).

Definition summary_call (transcription : value) : provider_call :=
  {| model := "gpt-4"; inputs := [transcription] |}.

End Summary.

Module Whisper.
Import JsNumber JsValue.

(** The double of the constant 0.95. *)
Definition c_0_95 : number := S754_finite false 8556839292003942 (-53).

(** What the transcription call gives: it rejects, or it resolves with a
    response of which [text], [language] and [duration] are read. *)
Inductive transcription_reply : Type :=
| Fails (e : error)
| Verbose (text language duration : value).

Record Transcription : Type := {
  t_text : value;
  t_language : value;
  t_confidence : number;
  t_duration : value
}.

(** [transcribeAudioWithAI(audioBlob, language)]; the audio itself only
    goes into the request. *)
Definition transcribeAudioWithAI (language : value) (r : transcription_reply)
  : outcome Transcription :=
  try_catch
    (match r with
     | Fails e => Throw e
     | Verbose text lang duration =>
         Return {| t_text := text;
                   t_language := or_else lang (or_else language (VStr "pt"));
                   t_confidence := c_0_95;
                   t_duration := duration |}
     end)
    (fun e => Throw (Error ("Falha na transcrição por IA: " ++ message e))).

End Whisper.

(* ================================================================== *)
(** * The other [/api/ai] routes, and the JSON the client receives *)
(* ================================================================== *)

Module Api.
Import JsNumber JsValue Upstream Results Routes.

Definition detection_body (d : Detection) : value :=
  VObj [("language", language d);
        ("confidence", VNum (d_confidence d));
        ("languageCode", languageCode d)].

Definition enhancement_body (e : Enhancement) : value :=
  VObj [("enhancedText", enhancedText e);
        ("corrections", VArr (corrections e));
        ("confidence", VNum (e_confidence e))].

Definition detect_call (text : value) : provider_call :=
  {| model := "gpt-4"; inputs := [text] |}.

(** [POST /api/ai/summary] *)
Definition post_ai_summary (req_body : list (string * value))
  (c : Summary.completion) : response * list provider_call :=
  let transcription := lookup "transcription" req_body in
  if negb (ToBoolean transcription)
  then
    ({| status := 400;
        body := message_body (VStr "Transcrição é obrigatória") |}, [])
  else
    match Summary.generateSummary transcription c with
    | Return summary =>
        ({| status := 200; body := VObj [("summary", VStr summary)] |},
         [Summary.summary_call transcription])
    | Throw e =>
        ({| status := 500;
            body := message_body
                      (or_else (VStr (message e))
                               (VStr "Falha ao gerar resumo")) |},
         [Summary.summary_call transcription])
    end.

(** [POST /api/ai/detect-language] *)
Definition post_ai_detect_language (req_body : list (string * value))
  (r : reply) : response * list provider_call :=
  let text := lookup "text" req_body in
  if negb (ToBoolean text)
  then
    ({| status := 400; body := message_body (VStr "Texto é obrigatório") |},
     [])
  else
    match OpenAI.detectLanguageFromText text r with
    | Return detection =>
        ({| status := 200; body := detection_body detection |},
         [detect_call text])
    | Throw _ =>
        ({| status := 500;
            body := message_body (VStr "Falha na detecção de idioma") |},
         [detect_call text])
    end.

(** [POST /api/ai/enhance] *)
Definition post_ai_enhance (req_body : list (string * value)) (r : reply)
  : response * list provider_call :=
  let text := lookup "text" req_body in
  let targetLanguage := lookup "targetLanguage" req_body in
  if negb (ToBoolean text)
  then
    ({| status := 400; body := message_body (VStr "Texto é obrigatório") |},
     [])
  else
    match OpenAI.enhanceTranscriptionText text targetLanguage r with
    | Return enhancement =>
        ({| status := 200; body := enhancement_body enhancement |},
         [OpenAI.enhance_call text targetLanguage])
    | Throw e =>
        ({| status := 500;
            body := message_body
                      (or_else (VStr (message e))
                               (VStr "Falha no aprimoramento do texto")) |},
         [OpenAI.enhance_call text targetLanguage])
    end.

(** A value after [res.json(v)] on the server and [response.json()] on
    the client, that is [JSON.parse(JSON.stringify(v))]: a property whose
    value is [undefined] is left out, [undefined] in an array and the
    numbers NaN and the infinities become [null], and [-0] becomes [0].
    [seen] holds the keys already met, a repeated key being shadowed by
    its first occurrence. *)
Fixpoint wire (v : value) : value :=
  match v with
  | VUndefined | VNull => VNull
  | VBool b => VBool b
  | VNum x =>
      match x with
      | S754_nan | S754_infinity _ => VNull
      | S754_zero _ => VNum zero
      | S754_finite _ _ _ => VNum x
      end
  | VStr s => VStr s
  | VArr items => VArr (map wire items)
  | VObj props =>
      VObj ((fix go (ps : list (string * value)) (seen : list string)
               : list (string * value) :=
               match ps with
               | [] => []
               | (k, x) :: rest =>
                   if existsb (String.eqb k) seen then go rest seen
                   else
                     match x with
                     | VUndefined => go rest (k :: seen)
                     | _ => (k, wire x) :: go rest (k :: seen)
                     end
               end) props [])
  end.

(** The property [key] of a response body *)
Definition field (key : string) (v : value) : value :=
  match v with
  | VObj props => lookup key props
  | _ => VUndefined
  end.

End Api.

(* ================================================================== *)
(** * The client side of the requests *)
(* ================================================================== *)

Module Client.
Import JsValue Session.

(** The bodies the hook's [mutationFn]s post: [{ text }] to
    [/api/ai/detect-language] and [{ text, targetLanguage }] to
    [/api/ai/enhance]. *)
Definition request_body (e : effect) : option (list (string * value)) :=
  match e with
  | DetectLanguage text => Some [("text", VStr text)]
  | EnhanceText text targetLanguage =>
      Some [("text", VStr text); ("targetLanguage", VStr targetLanguage)]
  | _ => None
  end.

(** The route a request of the hook goes to, and its response there. *)
Definition route_response (e : effect) (r : Upstream.reply)
  : option Routes.response :=
  match e, request_body e with
  | DetectLanguage _, Some b => Some (fst (Api.post_ai_detect_language b r))
  | EnhanceText _ _, Some b => Some (fst (Api.post_ai_enhance b r))
  | _, _ => None
  end.

(** The text a field of a parsed response holds, when it is a string. *)
Definition as_text (v : value) : option string :=
  match v with
  | VStr t => Some t
  | _ => None
  end.

(** [handleSubmitQuestion] of the analysis panel, on its [question] cell
    and the [transcript] it is given: the body posted to
    [/api/ai/analyze], or the warning toast alone. *)
Definition handleSubmitQuestion (question transcript : string)
  : option (list (string * value)) * list effect :=
  if String.eqb (JsString.trim question) "" || String.eqb transcript ""
  then
    (None,
     [Toast "Aviso"
        "Digite uma pergunta e certifique-se de que há conteúdo transcrito"
        true])
  else
    (Some [("transcription", VStr transcript);
           ("question", VStr (JsString.trim question))],
     []).

(** [formatTime(seconds)] of the statistics panel, on the whole number of
    seconds the session counts: [mm:ss], each part padded with a zero to
    two digits.  The count is a whole number below 2^53, which prints as
    its decimal digits. *)
Definition decimal (n : N) : string :=
  NilEmpty.string_of_uint (N.to_uint n).

Definition padStart2 (t : string) : string :=
  if Nat.ltb (String.length t) 2
  then (if String.eqb t "" then "00" else "0" ++ t)
  else t.

Definition formatTime (seconds : N) : string :=
  padStart2 (decimal (seconds / 60)%N) ++ ":"
  ++ padStart2 (decimal (seconds mod 60)%N).

(** Reading a display [mm:ss] back: the text before the first colon and
    the text after it, as decimal numbers. *)
Fixpoint split_colon (t : string) : option (string * string) :=
  match t with
  | EmptyString => None
  | String c r =>
      if Ascii.eqb c ":"%char then Some ("", r)
      else
        match split_colon r with
        | Some (a, b) => Some (String c a, b)
        | None => None
        end
  end.

Definition parseTime (t : string) : option N :=
  match split_colon t with
  | Some (a, b) =>
      match NilEmpty.uint_of_string a, NilEmpty.uint_of_string b with
      | Some x, Some y => Some (N.of_uint x * 60 + N.of_uint y)%N
      | _, _ => None
      end
  | None => None
  end.

End Client.

(* ================================================================== *)
(** * [analyzeSentiment] of the Gemini service *)
(* ================================================================== *)

Module Sentiment.
Import JsNumber JsValue Upstream Results.

Definition c_3 : number := S754_finite false 6755399441055744 (-51).
Definition c_5 : number := S754_finite false 5629499534213120 (-50).

(** [Math.round(x)]: the integer nearest to [x], a tie going towards
    plus infinity; NaN, the infinities, the zeros and the numbers without
    a fractional part are left as they are, and a result that is zero
    keeps the sign of [x].  A finite [x] is [m * 2^e]: with [e < 0] the
    integer part is [m / 2^-e] and the fraction is [m mod 2^-e] over
    [2^-e]. *)
Definition Math_round (x : number) : number :=
  match x with
  | S754_finite s m e =>
      if (0 <=? e)%Z then x
      else
        let d := (2 ^ (- e))%Z in
        let q := (Zpos m / d)%Z in
        let r := (Zpos m mod d)%Z in
        let z :=
          if s
          then (if (2 * r <=? d)%Z then q else q + 1)%Z
          else (if (2 * r <? d)%Z then q else q + 1)%Z in
        if (z =? 0)%Z then S754_zero s
        else binary_normalize prec emax (if s then - z else z)%Z 0 s
  | _ => x
  end.

(** [1 <= x <= 5] *)
Definition in_rating (x : number) : bool := SFleb one x && SFleb x c_5.

Record SentimentResult : Type := {
  rating : number;
  s_confidence : number;
  sentiment : value
}.

Definition analyzeSentiment (text : value) (r : reply)
  : outcome SentimentResult :=
  try_catch
    (bind (Gemini.parse_reply r) (fun data =>
     bind (get data "rating") (fun rt =>
     bind (get data "confidence") (fun conf =>
     bind (get data "sentiment") (fun sent =>
     Return {| rating :=
                 Math_max one
                   (Math_min c_5
                      (Math_round (ToNumber (or_else rt (VNum c_3)))));
               s_confidence := clamp_confidence conf c_0_5;
               sentiment := or_else sent (VStr "neutro") |})))))
    (fun _ =>
       Return {| rating := c_3;
                 s_confidence := c_0_5;
                 sentiment := VStr "neutro" |}).

End Sentiment.

(* ================================================================== *)
(** * The rest of the hook [useSpeechRecognition] *)
(* ================================================================== *)

Module Hook.
Import JsNumber JsValue Session.

Definition c_100 : number := S754_finite false 7036874417766400 (-46).

(** SameValueZero, the comparison of [Array.prototype.includes]: NaN is
    equal to NaN and [+0] to [-0]; an object or an array is equal to
    itself alone, and the value a response has just been parsed to is a
    new one. *)
Definition same_value_zero (a b : value) : bool :=
  match a, b with
  | VUndefined, VUndefined => true
  | VNull, VNull => true
  | VBool x, VBool y => Bool.eqb x y
  | VNum x, VNum y => (is_nan x && is_nan y) || SFeqb x y
  | VStr x, VStr y => String.eqb x y
  | _, _ => false
  end.

Definition includes (xs : list value) (v : value) : bool :=
  existsb (fun x => same_value_zero x v) xs.

(** The transcripts of a list of results, one after the other *)
Definition joined (rs : list result) : string :=
  fold_right (fun r t => part r ++ t) "" rs.

(** The [onSuccess] callback of the detection request, on the parsed
    response [data] and on the [detectedLanguages] the callback closed
    over.  Reading a property of a [data] that is [null] throws before
    any cell is set. *)
Definition detect_onSuccess (seen : list value) (data : value) (s : session)
  : session :=
  match
    bind (get data "language") (fun lang =>
    bind (get data "confidence") (fun conf =>
    bind (get data "languageCode") (fun langCode =>
    Return (lang, conf, langCode))))
  with
  | Throw _ => s
  | Return (lang, conf, langCode) =>
      let s1 := setConfidence conf (setDetectedLanguage lang s) in
      if includes seen langCode then s1
      else
        setLanguageCount (languageCount s1 + 1)%N
          (setDetectedLanguages (detectedLanguages s1 ++ [langCode])%list s1)
  end.

(** The [switch] of [switchLanguage] *)
Definition display_name (langCode : string) : string :=
  if String.eqb langCode "pt-BR" then "Português (BR)"
  else if String.eqb langCode "en-US" then "English (US)"
  else if String.eqb langCode "es-ES" then "Español (ES)"
  else "Português (BR)".

(** [switchLanguage(langCode)]: the session, the effects, and whether a
    restart is scheduled ([setTimeout(() => startRecording(), 500)]). *)
Definition switchLanguage (langCode : string) (s : session)
  : session * list effect * bool :=
  let s1 :=
    setDetectedLanguage (VStr (display_name langCode))
      (setCurrentLanguage langCode s) in
  if isRecording s
  then (fst (stopRecording s1), snd (stopRecording s1), true)
  else (s1, [], false).

(** [startRecording] as a closure of the render [seen]: the recognizer is
    built from the cells of that render, the refs and the timers are the
    current ones. *)
Definition startRecordingFrom (seen : session) (supported : bool)
  (s : session) : session * list effect :=
  if supported then
    let s1 := setRecognitionRef (Some (initializeRecognition seen)) s in
    let s2 := setRecordingTime 0%N s1 in
    let '(t1, s3) := setInterval s2 in
    let s4 := setTimeIntervalRef (Some t1) s3 in
    let '(t2, s5) := setInterval s4 in
    (setAudioLevelIntervalRef (Some t2) s5, [RecognizerStart])
  else
    (s, [Toast "Não Suportado"
           "Seu navegador não suporta reconhecimento de voz" true]).

(** The callbacks of the two timers; [u] is the draw of [Math.random()]. *)
Definition tick_time (s : session) : session :=
  setRecordingTime (recordingTime s + 1)%N s.

Definition tick_audio (u : number) (s : session) : session :=
  setAudioLevel (SFmul prec emax u c_100) s.

(** The cleanup of the effect, at unmount *)
Definition unmount (s : session) : session * list effect :=
  (clear_if_set (audioLevelIntervalRef s)
     (clear_if_set (timeIntervalRef s) s),
   match recognitionRef s with
   | Some _ => [RecognizerStop]
   | None => []
   end).

(** One thing happening to the session: a command of the user, an event
    of a recognizer, a timer firing, a response arriving. *)
Inductive step : session -> session -> Prop :=
| step_start seen supported s :
    step s (fst (startRecordingFrom seen supported s))
| step_stop s : step s (fst (stopRecording s))
| step_clear s : step s (clearTranscript s)
| step_switch langCode s : step s (fst (fst (switchLanguage langCode s)))
| step_toggle s : step s (fst (toggleEnhancedMode s))
| step_onstart s : step s (fst (onstart s))
| step_onresult rec ev s : step s (fst (onresult rec ev s))
| step_onerror aborted s : step s (fst (onerror aborted s))
| step_onend s : step s (onend s)
| step_tick_time s : step s (tick_time s)
| step_tick_audio u s : step s (tick_audio u s)
| step_detect seen data s : step s (detect_onSuccess seen data s)
| step_fallback text s : step s (detectLanguageFromTextFallback text s)
| step_enhance seen t s : step s (enhance_onSuccess seen t s)
| step_unmount s : step s (fst (unmount s)).

Inductive reachable : session -> Prop :=
| reach_initial : reachable initial
| reach_step s s' : reachable s -> step s s' -> reachable s'.

(** The identifiers in use are below the next one to be given. *)
Definition below (s : session) (r : option timer) : Prop :=
  match r with
  | Some id => (id < next_timer s)%positive
  | None => True
  end.

Definition timers_fresh (s : session) : Prop :=
  Forall (fun id => (id < next_timer s)%positive) (intervals s)
  /\ below s (timeIntervalRef s)
  /\ below s (audioLevelIntervalRef s).

End Hook.

(* ================================================================== *)
(** * Properties *)
(* ================================================================== *)

Import JsNumber JsValue Upstream Results Props.

(** ** Strings and numbers: the model on concrete inputs *)

Example chars_by_code_point :
  JsString.chars "não é" = ["n"; "ã"; "o"; " "; "é"].
Proof. reflexivity. Qed.

Example split_keeps_empty_ends :
  JsString.split_spaces " a  b " = [""; "a"; "b"; ""].
Proof. reflexivity. Qed.

Example split_of_empty : JsString.split_spaces "" = [""].
Proof. reflexivity. Qed.

Example lower_latin1 : JsString.toLowerCase "NÃO Está" = "não está".
Proof. reflexivity. Qed.

Example length_in_code_units :
  JsString.length "não" = 3 /\ JsString.length "a😀" = 3.
Proof. split; reflexivity. Qed.

(** The constants are the doubles nearest to the decimals of the source. *)
Lemma decimal_constants :
  StringToNumber "0.5" = c_0_5 /\ StringToNumber "0.8" = c_0_8 /\
  StringToNumber "0.98" = c_0_98 /\ StringToNumber "0.85" = c_0_85 /\
  StringToNumber "0.82" = c_0_82 /\ StringToNumber "0.79" = c_0_79 /\
  StringToNumber "1.5" = c_1_5 /\ StringToNumber "1" = one /\
  StringToNumber "0" = zero.
Proof. repeat split; vm_compute; reflexivity. Qed.

Example string_to_number_cases :
  StringToNumber "high" = nan /\ StringToNumber "" = zero /\
  StringToNumber " 1e999 " = S754_infinity false /\
  StringToNumber "-0" = S754_zero true /\
  StringToNumber "5e-324" = S754_finite false 1 (-1074).
Proof. repeat split; vm_compute; reflexivity. Qed.

(** ** Ordering of numbers *)

Lemma SFcompare_antisym (a b : number) (c : comparison) :
  SFcompare a b = Some c -> SFcompare b a = Some (CompOpp c).
Proof.
  destruct a as [sa | sa | | sa ma ea], b as [sb | sb | | sb mb eb];
    simpl; try discriminate.
  all: try (destruct sa; intros H; inversion H; reflexivity).
  all: try (destruct sb; intros H; inversion H; reflexivity).
  all: try (destruct sa, sb; intros H; inversion H; reflexivity).
  intros H; injection H as <-.
  pose proof (Pos.compare_cont_antisym ma mb Eq) as Hp; simpl in Hp.
  rewrite (Z.compare_antisym ea eb), <- Hp.
  destruct sa, sb; simpl; try reflexivity;
    destruct (ea ?= eb)%Z; simpl; try reflexivity;
    destruct (Pos.compare_cont Eq ma mb); reflexivity.
Qed.

Lemma SFleb_of_compare (a b : number) (c : comparison) :
  SFcompare a b = Some c -> c <> Lt -> SFleb b a = true.
Proof.
  intros H Hc. unfold SFleb. rewrite (SFcompare_antisym _ _ _ H).
  destruct c; simpl; congruence.
Qed.

(** [Math.max(0, Math.min(1, x))] lies in [0,1] unless [x] is NaN. *)
Lemma clamp_in_unit (x : number) :
  is_nan x = false -> in_unit (Math_max zero (Math_min one x)) = true.
Proof.
  intros Hx.
  assert (Hm : exists m, Math_min one x = m /\ is_nan m = false
                         /\ SFleb m one = true).
  { unfold Math_min. destruct (SFcompare one x) as [c|] eqn:E.
    - destruct c.
      + exists x. repeat split; auto.
        apply (SFleb_of_compare _ _ _ E); discriminate.
      + exists one. repeat split; reflexivity.
      + exists x. repeat split; auto.
        apply (SFleb_of_compare _ _ _ E); discriminate.
    - destruct x; simpl in *; discriminate. }
  destruct Hm as (m & -> & Hn & Hle).
  unfold Math_max, in_unit.
  destruct (SFcompare zero m) as [c|] eqn:E.
  - destruct c; simpl.
    + reflexivity.
    + rewrite Hle. unfold SFleb. rewrite E. reflexivity.
    + reflexivity.
  - destruct m; simpl in *; discriminate.
Qed.

(** ** The AI enrichment wrappers *)

Lemma try_catch_returns {A} (body : outcome A) (handler : error -> outcome A) :
  (forall e, exists a, handler e = Return a) ->
  exists a, try_catch body handler = Return a.
Proof.
  intros H. destruct body as [a | e]; simpl; [exists a; reflexivity | apply H].
Qed.

Lemma clamp_confidence_in_unit (v : value) (d : number) :
  numeric_or_missing v = true -> is_nan d = false ->
  in_unit (clamp_confidence v d) = true.
Proof.
  intros Hv Hd. unfold clamp_confidence. apply clamp_in_unit.
  unfold or_else.
  destruct v as [ | | b | x | s | l | o]; simpl in *; try discriminate; auto.
  destruct x; simpl in *; auto; discriminate.
Qed.

Lemma clamp_confidence_above_one (x d : number) :
  SFltb one x = true -> clamp_confidence (VNum x) d = one.
Proof.
  intros H. unfold clamp_confidence, or_else, SFltb in *.
  destruct (SFcompare one x) as [[ | | ]|] eqn:E; try discriminate.
  assert (Hb : ToBoolean (VNum x) = true).
  { destruct x; simpl in *; try reflexivity; discriminate. }
  rewrite Hb. simpl ToNumber. unfold Math_min. rewrite E. reflexivity.
Qed.

Lemma clamp_confidence_below_zero (x d : number) :
  SFltb x zero = true -> clamp_confidence (VNum x) d = zero.
Proof.
  intros H. unfold clamp_confidence, or_else.
  destruct x as [sx | sx | | sx m e]; try discriminate H;
    destruct sx; try discriminate H; reflexivity.
Qed.

(** C5, as amended: when the confidence a wrapper reads from the reply is
    a number, [null] or absent, the confidence it reports lies in [0,1]
    (for [analyzeTranscriptionContent]: whenever it returns a result); a
    number above 1 is reported as 1 and a number below 0 as 0; an absent
    confidence is reported as
    the default of the operation, 0.5 for analyze and detect-language and
    0.8 for enhance. *)
Theorem confidence_clamped_when_numeric
  (transcription question text targetLanguage : value) (r : reply) :
  numeric_or_missing (confidence_read OpenAI.parse_reply r) = true ->
  (forall a,
      OpenAI.analyzeTranscriptionContent transcription question r = Return a ->
      in_unit (a_confidence a) = true)
  /\ (exists d, OpenAI.detectLanguageFromText text r = Return d
                /\ in_unit (d_confidence d) = true)
  /\ (exists e, OpenAI.enhanceTranscriptionText text targetLanguage r = Return e
                /\ in_unit (e_confidence e) = true)
  /\ (forall props x,
         r = object_reply props ->
         lookup "confidence" props = VNum x -> SFltb one x = true ->
         (exists a, OpenAI.analyzeTranscriptionContent transcription question r
                    = Return a /\ a_confidence a = one)
         /\ (exists d, OpenAI.detectLanguageFromText text r = Return d
                       /\ d_confidence d = one)
         /\ (exists e, OpenAI.enhanceTranscriptionText text targetLanguage r
                       = Return e /\ e_confidence e = one))
  /\ (forall props x,
         r = object_reply props ->
         lookup "confidence" props = VNum x -> SFltb x zero = true ->
         (exists a, OpenAI.analyzeTranscriptionContent transcription question r
                    = Return a /\ a_confidence a = zero)
         /\ (exists d, OpenAI.detectLanguageFromText text r = Return d
                       /\ d_confidence d = zero)
         /\ (exists e, OpenAI.enhanceTranscriptionText text targetLanguage r
                       = Return e /\ e_confidence e = zero))
  /\ (forall props,
         r = object_reply props ->
         lookup "confidence" props = VUndefined ->
         (exists a, OpenAI.analyzeTranscriptionContent transcription question r
                    = Return a /\ a_confidence a = c_0_5)
         /\ (exists d, OpenAI.detectLanguageFromText text r = Return d
                       /\ d_confidence d = c_0_5)
         /\ (exists e, OpenAI.enhanceTranscriptionText text targetLanguage r
                       = Return e /\ e_confidence e = c_0_8)).
Proof.
  intros Hnum.
  unfold confidence_read in Hnum.
  unfold OpenAI.analyzeTranscriptionContent, OpenAI.detectLanguageFromText,
    OpenAI.enhanceTranscriptionText.
  repeat split.
  - intros a. destruct (OpenAI.parse_reply r) as [v | e]; simpl in *;
      [ | discriminate].
    destruct (get v "answer") as [ans | e1] eqn:E1; simpl; [ | discriminate].
    destruct v; simpl in *; try discriminate;
      intros H; injection H as <-; simpl;
      apply clamp_confidence_in_unit; auto.
  - destruct (OpenAI.parse_reply r) as [v | e]; simpl in *;
      [ | eexists; split; reflexivity].
    destruct v; simpl in *; eexists; split; try reflexivity; simpl;
      try apply clamp_confidence_in_unit; auto.
  - destruct (OpenAI.parse_reply r) as [v | e]; simpl in *;
      [ | eexists; split; reflexivity].
    destruct v; simpl in *; eexists; split; try reflexivity; simpl;
      try apply clamp_confidence_in_unit; auto.
  - subst r. simpl. rewrite H0. eexists; split; [reflexivity | ].
    simpl. apply clamp_confidence_above_one; assumption.
  - subst r. simpl. rewrite H0. eexists; split; [reflexivity | ].
    simpl. apply clamp_confidence_above_one; assumption.
  - subst r. simpl. rewrite H0. eexists; split; [reflexivity | ].
    simpl. apply clamp_confidence_above_one; assumption.
  - subst r. simpl. rewrite H0. eexists; split; [reflexivity | ].
    simpl. apply clamp_confidence_below_zero; assumption.
  - subst r. simpl. rewrite H0. eexists; split; [reflexivity | ].
    simpl. apply clamp_confidence_below_zero; assumption.
  - subst r. simpl. rewrite H0. eexists; split; [reflexivity | ].
    simpl. apply clamp_confidence_below_zero; assumption.
  - subst r. simpl. rewrite H0. eexists; split; reflexivity.
  - subst r. simpl. rewrite H0. eexists; split; reflexivity.
  - subst r. simpl. rewrite H0. eexists; split; reflexivity.
Qed.

Lemma confidence_clamped_when_numeric_witness :
  numeric_or_missing
    (confidence_read OpenAI.parse_reply
       (object_reply [("confidence", VNum c_1_5)])) = true
  /\ (exists d,
         OpenAI.detectLanguageFromText (VStr "bom dia")
           (object_reply [("confidence", VNum c_1_5)]) = Return d
         /\ d_confidence d = one).
Proof.
  split; [reflexivity | ].
  exact (proj1 (proj2
           (proj1 (proj2 (proj2 (proj2
              (confidence_clamped_when_numeric
                 (VStr "texto") (VStr "pergunta") (VStr "bom dia") VUndefined
                 (object_reply [("confidence", VNum c_1_5)]) eq_refl))))
              [("confidence", VNum c_1_5)] c_1_5 eq_refl eq_refl eq_refl))).
Defined.

(** C5 as stated fails: a confidence that is a text which is no number is
    truthy, converts to NaN, and NaN passes through [Math.min] and
    [Math.max]; the reported confidence is not in [0,1]. *)
Lemma text_confidence_reported_as_nan :
  OpenAI.analyzeTranscriptionContent (VStr "texto") (VStr "pergunta")
      (object_reply [("confidence", VStr "high")])
    = Return {| answer := no_answer; a_confidence := nan;
                relatedTopics := [] |}
  /\ OpenAI.detectLanguageFromText (VStr "texto")
       (object_reply [("confidence", VStr "high")])
     = Return (unidentified_detection nan)
  /\ OpenAI.enhanceTranscriptionText (VStr "texto") VUndefined
       (object_reply [("confidence", VStr "high")])
     = Return (unchanged_text (VStr "texto") nan)
  /\ in_unit nan = false.
Proof. repeat split; vm_compute; reflexivity. Qed.

(** C10: when a well-formed reply carries a confidence that is exactly 0
    (of either sign), every wrapper reports its default, 0.5 for analyze
    and detect-language and 0.8 for enhance: [0 || d] is [d]. *)
Theorem zero_confidence_reported_as_default
  (props : list (string * value)) (sign : bool)
  (transcription question text targetLanguage : value) :
  lookup "confidence" props = VNum (S754_zero sign) ->
  (exists a,
      OpenAI.analyzeTranscriptionContent transcription question
        (object_reply props) = Return a
      /\ a_confidence a = c_0_5)
  /\ (exists d,
         OpenAI.detectLanguageFromText text (object_reply props) = Return d
         /\ d_confidence d = c_0_5)
  /\ (exists e,
         OpenAI.enhanceTranscriptionText text targetLanguage
           (object_reply props) = Return e
         /\ e_confidence e = c_0_8).
Proof.
  intros H.
  unfold OpenAI.analyzeTranscriptionContent, OpenAI.detectLanguageFromText,
    OpenAI.enhanceTranscriptionText.
  simpl. rewrite H.
  repeat split; eexists; split; reflexivity.
Qed.

Lemma zero_confidence_reported_as_default_witness :
  lookup "confidence"
    [("answer", VStr "sim"); ("confidence", VNum zero)] = VNum zero
  /\ (exists a,
         OpenAI.analyzeTranscriptionContent (VStr "texto") (VStr "pergunta")
           (object_reply [("answer", VStr "sim"); ("confidence", VNum zero)])
         = Return a
         /\ a_confidence a = c_0_5).
Proof.
  split; [reflexivity | ].
  exact (proj1
           (zero_confidence_reported_as_default
              [("answer", VStr "sim"); ("confidence", VNum zero)] false
              (VStr "texto") (VStr "pergunta") (VStr "texto") VUndefined
              eq_refl)).
Defined.

(** C1, as amended: detect-language and enhance always return a result,
    whatever the text and the reply.  On a malformed reply (the call
    fails, no message, a text that is no JSON, a JSON [null])
    detect-language returns [{language: "Erro na detecção", confidence: 0,
    languageCode: "unknown"}] and enhance returns the input text with no
    corrections and confidence 0.5.  On an empty reply the Gemini wrappers
    return the same, while the OpenAI wrappers read the empty object:
    [{language: "Não identificado", confidence: 0.5, languageCode:
    "unknown"}] and the input text with confidence 0.8. *)
Theorem detect_and_enhance_never_throw (text targetLanguage : value)
  (r : reply) :
  ((exists d, OpenAI.detectLanguageFromText text r = Return d)
   /\ (exists e, OpenAI.enhanceTranscriptionText text targetLanguage r
                 = Return e)
   /\ (exists d, Gemini.detectLanguageFromText text r = Return d)
   /\ (exists e, Gemini.enhanceTranscriptionText text targetLanguage r
                 = Return e))
  /\ (malformed r = true ->
      OpenAI.detectLanguageFromText text r = Return error_detection
      /\ OpenAI.enhanceTranscriptionText text targetLanguage r
         = Return (unchanged_text text c_0_5)
      /\ Gemini.detectLanguageFromText text r = Return error_detection
      /\ Gemini.enhanceTranscriptionText text targetLanguage r
         = Return (unchanged_text text c_0_5))
  /\ (r = Content Empty ->
      OpenAI.detectLanguageFromText text r
      = Return (unidentified_detection c_0_5)
      /\ OpenAI.enhanceTranscriptionText text targetLanguage r
         = Return (unchanged_text text c_0_8)
      /\ Gemini.detectLanguageFromText text r = Return error_detection
      /\ Gemini.enhanceTranscriptionText text targetLanguage r
         = Return (unchanged_text text c_0_5)).
Proof.
  split; [ | split].
  - repeat split; apply try_catch_returns; intros e; eexists; reflexivity.
  - intros H.
    destruct r as [e | e | [ | [e | v]]]; simpl in H; try discriminate;
      try (repeat split; reflexivity).
    destruct v; try discriminate; repeat split; reflexivity.
  - intros ->. repeat split; reflexivity.
Qed.

Lemma detect_and_enhance_never_throw_witness :
  malformed not_json = true
  /\ OpenAI.detectLanguageFromText (VStr "bom dia") not_json
     = Return error_detection.
Proof.
  split; [reflexivity | ].
  exact (proj1 (proj1 (proj2
           (detect_and_enhance_never_throw (VStr "bom dia") VUndefined
              not_json)) eq_refl)).
Defined.

(** C1 as stated fails: on a text that is no JSON detect-language does
    not return the object with language "Não identificado" and confidence
    0, and on an empty reply the OpenAI wrappers return neither that
    object nor a confidence of 0.5. *)
Lemma malformed_reply_gives_other_defaults :
  OpenAI.detectLanguageFromText (VStr "bom dia") not_json
    <> Return (unidentified_detection zero)
  /\ Gemini.detectLanguageFromText (VStr "bom dia") not_json
     <> Return (unidentified_detection zero)
  /\ OpenAI.detectLanguageFromText (VStr "bom dia") (Content Empty)
     <> Return (unidentified_detection zero)
  /\ OpenAI.enhanceTranscriptionText (VStr "bom dia") VUndefined
       (Content Empty)
     <> Return (unchanged_text (VStr "bom dia") c_0_5).
Proof. repeat split; vm_compute; intros H; discriminate H. Qed.

(** ** The route [POST /api/ai/analyze] *)

(** C8: a request body without the [question] field, or without the
    [transcription] field, is answered 400 and no request is sent to the
    provider; a request is sent only when both fields are present, and it
    is the analyze request on these two fields. *)
Theorem analyze_route_requires_both_fields
  (req_body : list (string * value)) (r : reply) :
  (lookup "question" req_body = VUndefined
   \/ lookup "transcription" req_body = VUndefined ->
   Routes.post_ai_analyze req_body r
   = ({| Routes.status := 400;
         Routes.body :=
           Routes.message_body
             (VStr "Transcrição e pergunta são obrigatórias") |}, []))
  /\ (snd (Routes.post_ai_analyze req_body r) <> [] ->
      lookup "transcription" req_body <> VUndefined
      /\ lookup "question" req_body <> VUndefined
      /\ snd (Routes.post_ai_analyze req_body r)
         = [OpenAI.analyze_call (lookup "transcription" req_body)
              (lookup "question" req_body)]).
Proof.
  unfold Routes.post_ai_analyze. split.
  - intros [H | H]; rewrite H; simpl.
    + rewrite orb_true_r. reflexivity.
    + reflexivity.
  - destruct (ToBoolean (lookup "transcription" req_body)) eqn:Et;
      destruct (ToBoolean (lookup "question" req_body)) eqn:Eq';
      simpl; try (intros H; exfalso; apply H; reflexivity).
    intros _. repeat split.
    + intros H; rewrite H in Et; discriminate.
    + intros H; rewrite H in Eq'; discriminate.
    + destruct (OpenAI.analyzeTranscriptionContent _ _ r); reflexivity.
Qed.

Lemma analyze_route_requires_both_fields_witness :
  (lookup "question" [("transcription", VStr "bom dia a todos")] = VUndefined
   \/ lookup "transcription" [("transcription", VStr "bom dia a todos")]
      = VUndefined)
  /\ Routes.post_ai_analyze [("transcription", VStr "bom dia a todos")]
       (object_reply [("answer", VStr "sim")])
     = ({| Routes.status := 400;
           Routes.body :=
             Routes.message_body
               (VStr "Transcrição e pergunta são obrigatórias") |}, []).
Proof.
  split; [left; reflexivity | ].
  exact (proj1
           (analyze_route_requires_both_fields
              [("transcription", VStr "bom dia a todos")]
              (object_reply [("answer", VStr "sim")]))
           (or_introl eq_refl)).
Defined.

(** ** The recognition session *)

Import Session.

(** What [onresult] leaves in the buffer and what it fires, in terms of
    the values its recognizer closed over. *)
Lemma onresult_transcript (rec : recognition) (ev : event) (s : session) :
  transcript (fst (onresult rec ev s))
  = seen_transcript rec ++ finalTranscript ev ++ interimTranscript ev.
Proof. reflexivity. Qed.

Lemma onresult_fires (rec : recognition) (ev : event) (s : session) :
  snd (onresult rec ev s)
  = if String.eqb (finalTranscript ev) "" then []
    else DetectLanguage (finalTranscript ev)
           :: (if seen_enhancedMode rec
                  && Nat.ltb 20 (JsString.length (finalTranscript ev))
               then [EnhanceText (finalTranscript ev)
                       (seen_currentLanguage rec)]
               else []).
Proof.
  unfold onresult, enrichment; simpl.
  destruct (String.eqb (finalTranscript ev) ""); reflexivity.
Qed.

(** After a sequence of result events of one recognizer the buffer holds
    the text of the last event alone, after the transcript the recognizer
    closed over: the earlier events have left no trace. *)
Lemma run_results_last (rec : recognition) (evs : list event) (ev : event)
  (s : session) :
  transcript (run_results rec (evs ++ [ev]) s)
  = seen_transcript rec ++ finalTranscript ev ++ interimTranscript ev.
Proof.
  revert s. induction evs as [ | e evs IH]; intros s; simpl.
  - reflexivity.
  - apply IH.
Qed.

(** A recognizer keeps the values of the render that built it. *)
Lemma started_recognizer_is_a_snapshot (s : session) :
  recognitionRef (fst (startRecording true s))
  = Some (initializeRecognition s)
  /\ seen_transcript (initializeRecognition s) = transcript s
  /\ seen_enhancedMode (initializeRecognition s) = enhancedMode s
  /\ recognitionRef (fst (toggleEnhancedMode (fst (startRecording true s))))
     = Some (initializeRecognition s).
Proof. repeat split. Qed.

(** C2: on "the and is to it you that this" the heuristic scores 8 for
    English and 0 for the others and sets English (US), en-US and the
    confidence 0.82.  On every text it either leaves the session as it is
    (no strict highest score) or sets the language with the strictly
    highest score together with that language's constant: 0.85 for pt-BR,
    0.82 for en-US, 0.79 for es-ES. *)
Theorem fallback_picks_strict_highest_with_fixed_confidence :
  (forall s,
      detectedLanguage
        (detectLanguageFromTextFallback "the and is to it you that this" s)
      = VStr "English (US)"
      /\ currentLanguage
           (detectLanguageFromTextFallback "the and is to it you that this" s)
         = "en-US"
      /\ confidence
           (detectLanguageFromTextFallback "the and is to it you that this" s)
         = VNum c_0_82)
  /\ (forall text s,
         let words := JsString.split_spaces (JsString.toLowerCase text) in
         let pt := score portugueseWords words in
         let en := score englishWords words in
         let es := score spanishWords words in
         let s' := detectLanguageFromTextFallback text s in
         ((en < pt)%nat /\ (es < pt)%nat
          /\ detectedLanguage s' = VStr "Português (BR)"
          /\ currentLanguage s' = "pt-BR" /\ confidence s' = VNum c_0_85)
         \/ ((pt < en)%nat /\ (es < en)%nat
             /\ detectedLanguage s' = VStr "English (US)"
             /\ currentLanguage s' = "en-US" /\ confidence s' = VNum c_0_82)
         \/ ((pt < es)%nat /\ (en < es)%nat
             /\ detectedLanguage s' = VStr "Español (ES)"
             /\ currentLanguage s' = "es-ES" /\ confidence s' = VNum c_0_79)
         \/ (~ ((en < pt)%nat /\ (es < pt)%nat)
             /\ ~ ((pt < en)%nat /\ (es < en)%nat)
             /\ ~ ((pt < es)%nat /\ (en < es)%nat)
             /\ s' = s))
  /\ c_0_85 = StringToNumber "0.85" /\ c_0_82 = StringToNumber "0.82"
  /\ c_0_79 = StringToNumber "0.79".
Proof.
  split; [ | split].
  - intros s. repeat split.
  - intros text s words pt en es s'. subst s'.
    unfold detectLanguageFromTextFallback.
    fold words. fold pt. fold en. fold es.
    destruct (Nat.ltb_spec en pt) as [H1 | H1];
      destruct (Nat.ltb_spec es pt) as [H2 | H2]; simpl;
      try (left; repeat split; assumption).
    all: destruct (Nat.ltb_spec pt en) as [H3 | H3];
      destruct (Nat.ltb_spec es en) as [H4 | H4]; simpl;
      try (right; left; repeat split; assumption).
    all: destruct (Nat.ltb_spec pt es) as [H5 | H5];
      destruct (Nat.ltb_spec en es) as [H6 | H6]; simpl;
      try (right; right; left; repeat split; assumption).
    all: right; right; right; repeat split; try reflexivity; lia.
  - repeat split; vm_compute; reflexivity.
Qed.

(** C6: whatever the session, [clearTranscript] leaves [wordCount] at 0,
    [recordingTime] at 0 and the detection back at its initial values: the
    list [["pt-BR"]], a language count of 1 and the display language
    "Português (BR)". *)
Theorem clear_resets_counters_and_detection (s : session) :
  wordCount (clearTranscript s) = 0
  /\ recordingTime (clearTranscript s) = 0%N
  /\ detectedLanguages (clearTranscript s) = [VStr "pt-BR"]
  /\ languageCount (clearTranscript s) = 1%N
  /\ detectedLanguage (clearTranscript s) = VStr "Português (BR)"
  /\ detectedLanguages (clearTranscript s) = detectedLanguages initial
  /\ languageCount (clearTranscript s) = languageCount initial
  /\ detectedLanguage (clearTranscript s) = detectedLanguage initial.
Proof. repeat split. Qed.

(** C9: [clearTranscript] leaves [currentLanguage], [enhancedMode] and
    [isRecording] as they were; all it changes is the transcript, the
    counters and the detection state: the audio level, the refs and the
    timers are untouched as well. *)
Theorem clear_keeps_language_and_mode (s : session) :
  currentLanguage (clearTranscript s) = currentLanguage s
  /\ enhancedMode (clearTranscript s) = enhancedMode s
  /\ isRecording (clearTranscript s) = isRecording s
  /\ audioLevel (clearTranscript s) = audioLevel s
  /\ recognitionRef (clearTranscript s) = recognitionRef s
  /\ timeIntervalRef (clearTranscript s) = timeIntervalRef s
  /\ audioLevelIntervalRef (clearTranscript s) = audioLevelIntervalRef s
  /\ intervals (clearTranscript s) = intervals s
  /\ transcript (clearTranscript s) = "".
Proof. repeat split. Qed.

(** C7: [stopRecording] twice in a row leaves the same session as once, so
    that on a stopped session it changes nothing.  After it the audio
    level is 0, the recognizer and both timer refs are empty, the timers
    the refs held run no more, and the recognizer that was in the ref has
    been told to stop. *)
Theorem stop_is_idempotent (s : session) :
  fst (stopRecording (fst (stopRecording s))) = fst (stopRecording s)
  /\ audioLevel (fst (stopRecording s)) = zero
  /\ recognitionRef (fst (stopRecording s)) = None
  /\ timeIntervalRef (fst (stopRecording s)) = None
  /\ audioLevelIntervalRef (fst (stopRecording s)) = None
  /\ (forall id,
         timeIntervalRef s = Some id \/ audioLevelIntervalRef s = Some id ->
         ~ In id (intervals (fst (stopRecording s))))
  /\ (forall rec,
         recognitionRef s = Some rec ->
         In RecognizerStop (snd (stopRecording s))).
Proof.
  destruct s as [rc tr dl cf al rt wc lc cl em dls rref tref aref ivs nt].
  unfold stopRecording; simpl.
  split; [ | split; [ | split; [ | split; [ | split; [ | split]]]]].
  - destruct tref, aref; reflexivity.
  - reflexivity.
  - destruct tref, aref; reflexivity.
  - destruct tref, aref; reflexivity.
  - destruct tref, aref; reflexivity.
  - intros id [H | H] Hin; subst.
    + destruct aref as [id2 | ]; simpl in Hin.
      * apply filter_In in Hin. destruct Hin as [Hin _].
        apply filter_In in Hin. destruct Hin as [_ Hin].
        rewrite Pos.eqb_refl in Hin. discriminate.
      * apply filter_In in Hin. destruct Hin as [_ Hin].
        rewrite Pos.eqb_refl in Hin. discriminate.
    + destruct tref as [id1 | ]; simpl in Hin.
      * apply filter_In in Hin. destruct Hin as [_ Hin].
        rewrite Pos.eqb_refl in Hin. discriminate.
      * apply filter_In in Hin. destruct Hin as [_ Hin].
        rewrite Pos.eqb_refl in Hin. discriminate.
  - intros rec H. subst. left; reflexivity.
Qed.

Lemma stop_is_idempotent_witness :
  (timeIntervalRef (fst (startRecording true initial)) = Some 1%positive
   \/ audioLevelIntervalRef (fst (startRecording true initial))
      = Some 1%positive)
  /\ ~ In 1%positive
       (intervals (fst (stopRecording (fst (startRecording true initial))))).
Proof.
  split; [left; reflexivity | ].
  exact (proj1 (proj2 (proj2 (proj2 (proj2 (proj2
           (stop_is_idempotent (fst (startRecording true initial))))))))
           1%positive (or_introl eq_refl)).
Defined.

(** C3 fails on the code.  [onresult] reads the [transcript] its
    recognizer closed over when recording started, not the buffer as it is
    now: after a recording started on the empty session, a first event
    finalizes "hello world" and leaves the buffer at 11 code units, and a
    second event finalizes "hi" and leaves it at 2. *)
Theorem result_event_shortens_transcript :
  recognitionRef (fst (startRecording true initial))
  = Some (initializeRecognition initial)
  /\ transcript
       (run_results (initializeRecognition initial)
          [Event 0 [Result "hello world" true]]
          (fst (startRecording true initial)))
     = "hello world"
  /\ transcript
       (run_results (initializeRecognition initial)
          [Event 0 [Result "hello world" true];
           Event 1 [Result "hello world" true; Result "hi" true]]
          (fst (startRecording true initial)))
     = "hi"
  /\ (JsString.length "hi" < JsString.length "hello world")%nat.
Proof. repeat split. vm_compute. lia. Qed.

(** C4 fails on the code.  [onresult] reads the [enhancedMode] its
    recognizer closed over when recording started.  Recording starts with
    the mode on and the mode is switched off: an event that finalizes 32
    code units still fires the enhancement request.  Recording starts with
    the mode off and the mode is switched on: the same event fires the
    detection request alone. *)
Theorem enhancement_follows_mode_at_start :
  enhancedMode (fst (toggleEnhancedMode (fst (startRecording true initial))))
  = false
  /\ recognitionRef
       (fst (toggleEnhancedMode (fst (startRecording true initial))))
     = Some (initializeRecognition initial)
  /\ snd (onresult (initializeRecognition initial)
            (Event 0 [Result "this is a long finalized segment" true])
            (fst (toggleEnhancedMode (fst (startRecording true initial)))))
     = [DetectLanguage "this is a long finalized segment";
        EnhanceText "this is a long finalized segment" "pt-BR"]
  /\ enhancedMode
       (fst (toggleEnhancedMode
               (fst (startRecording true
                       (fst (toggleEnhancedMode initial))))))
     = true
  /\ recognitionRef
       (fst (toggleEnhancedMode
               (fst (startRecording true
                       (fst (toggleEnhancedMode initial))))))
     = Some (initializeRecognition (fst (toggleEnhancedMode initial)))
  /\ snd (onresult
            (initializeRecognition (fst (toggleEnhancedMode initial)))
            (Event 0 [Result "this is a long finalized segment" true])
            (fst (toggleEnhancedMode
                    (fst (startRecording true
                            (fst (toggleEnhancedMode initial)))))))
     = [DetectLanguage "this is a long finalized segment"].
Proof. repeat split. Qed.

(* ================================================================== *)
(** * Further properties of the wrappers and the routes *)
(* ================================================================== *)

Lemma prefix_append (p t : string) : String.prefix p (p ++ t) = true.
Proof.
  induction p as [ | c p IH]; simpl.
  - destruct t; reflexivity.
  - destruct (ascii_dec c c) as [_ | H]; [exact IH | exfalso; apply H; reflexivity].
Qed.

Lemma or_else_truthy (a b : value) :
  ToBoolean b = true -> ToBoolean (or_else a b) = true.
Proof.
  intros H. unfold or_else. destruct (ToBoolean a) eqn:E; assumption.
Qed.

Lemma clamp_confidence_identity (x d : number) :
  SFltb zero x = true -> SFleb x one = true ->
  clamp_confidence (VNum x) d = x.
Proof.
  unfold SFltb, SFleb. intros H0 H1.
  destruct (SFcompare zero x) as [[ | | ] | ] eqn:E0; try discriminate.
  destruct (SFcompare x one) as [c | ] eqn:E1; try discriminate.
  apply SFcompare_antisym in E1.
  assert (Hb : ToBoolean (VNum x) = true).
  { destruct x; simpl in *; try reflexivity; discriminate. }
  unfold clamp_confidence, or_else. rewrite Hb. simpl ToNumber.
  unfold Math_min. rewrite E1.
  destruct c; try discriminate; simpl; unfold Math_max; rewrite E0;
    reflexivity.
Qed.

Lemma clamp_confidence_nan_or_unit (v : value) (d : number) :
  is_nan d = false ->
  clamp_confidence v d = nan \/ in_unit (clamp_confidence v d) = true.
Proof.
  intros Hd. unfold clamp_confidence.
  destruct (is_nan (ToNumber (or_else v (VNum d)))) eqn:E.
  - left. destruct (ToNumber (or_else v (VNum d))); try discriminate.
    reflexivity.
  - right. apply clamp_in_unit. exact E.
Qed.

(** X1: the OpenAI and the Gemini wrappers of detect-language and of
    enhance give the same result on every reply but the empty one. *)
Theorem services_agree_off_empty_reply (text targetLanguage : value)
  (r : reply) :
  r <> Content Empty ->
  OpenAI.detectLanguageFromText text r = Gemini.detectLanguageFromText text r
  /\ OpenAI.enhanceTranscriptionText text targetLanguage r
     = Gemini.enhanceTranscriptionText text targetLanguage r.
Proof.
  intros H. destruct r as [e | e | [ | p]]; try (split; reflexivity).
  exfalso; apply H; reflexivity.
Qed.

Lemma services_agree_off_empty_reply_witness :
  not_json <> Content Empty
  /\ OpenAI.detectLanguageFromText (VStr "bom dia") not_json
     = Gemini.detectLanguageFromText (VStr "bom dia") not_json.
Proof.
  assert (H : not_json <> Content Empty) by (intros H; discriminate H).
  split; [exact H | ].
  exact (proj1 (services_agree_off_empty_reply (VStr "bom dia") VUndefined
                  not_json H)).
Defined.

(** X2: a confidence of the reply that is a number above 0 and at most 1
    is reported as it is by the three wrappers. *)
Theorem valid_confidence_reported_unchanged
  (props : list (string * value)) (x : number)
  (transcription question text targetLanguage : value) :
  lookup "confidence" props = VNum x ->
  SFltb zero x = true -> SFleb x one = true ->
  (exists a,
      OpenAI.analyzeTranscriptionContent transcription question
        (object_reply props) = Return a /\ a_confidence a = x)
  /\ (exists d,
         OpenAI.detectLanguageFromText text (object_reply props) = Return d
         /\ d_confidence d = x)
  /\ (exists e,
         OpenAI.enhanceTranscriptionText text targetLanguage
           (object_reply props) = Return e /\ e_confidence e = x).
Proof.
  intros H H0 H1.
  unfold OpenAI.analyzeTranscriptionContent, OpenAI.detectLanguageFromText,
    OpenAI.enhanceTranscriptionText.
  simpl. rewrite H.
  repeat split; eexists; (split; [reflexivity | ]); simpl;
    apply clamp_confidence_identity; assumption.
Qed.

Lemma valid_confidence_reported_unchanged_witness :
  lookup "confidence" [("confidence", VNum c_0_85)] = VNum c_0_85
  /\ SFltb zero c_0_85 = true /\ SFleb c_0_85 one = true
  /\ (exists d,
         OpenAI.detectLanguageFromText (VStr "bom dia")
           (object_reply [("confidence", VNum c_0_85)]) = Return d
         /\ d_confidence d = c_0_85).
Proof.
  repeat split.
  exact (proj1 (proj2
           (valid_confidence_reported_unchanged
              [("confidence", VNum c_0_85)] c_0_85
              (VStr "texto") (VStr "pergunta") (VStr "bom dia") VUndefined
              eq_refl eq_refl eq_refl))).
Defined.

Ltac reply_cases r :=
  let e := fresh "e" in
  let v := fresh "v" in
  destruct r as [e | e | [ | [e | v]]]; [ | | | | destruct v]; simpl.

Lemma analyze_on_malformed (transcription question : value) (r : reply) :
  malformed r = true ->
  exists m,
    OpenAI.analyzeTranscriptionContent transcription question r
    = Throw (Error ("Falha ao analisar conteúdo: " ++ m)).
Proof.
  unfold OpenAI.analyzeTranscriptionContent.
  reply_cases r; intros H; try discriminate H; eexists;
    unfold try_catch; simpl message; reflexivity.
Qed.

Lemma analyze_on_well_formed (transcription question : value) (r : reply) :
  malformed r = false ->
  exists a,
    OpenAI.analyzeTranscriptionContent transcription question r = Return a
    /\ ToBoolean (answer a) = true
    /\ (a_confidence a = nan \/ in_unit (a_confidence a) = true).
Proof.
  unfold OpenAI.analyzeTranscriptionContent.
  reply_cases r; intros H; try discriminate H; eexists;
    (split; [reflexivity | split;
       [apply or_else_truthy; reflexivity
       | apply clamp_confidence_nan_or_unit; reflexivity]]).
Qed.

(** X3: [analyzeTranscriptionContent] throws exactly on the malformed
    replies, with the message of the failure behind "Falha ao analisar
    conteúdo: "; when it returns, the answer is truthy (never the empty
    text). *)
Theorem analyze_throws_exactly_on_malformed
  (transcription question : value) (r : reply) :
  (malformed r = true <->
   exists e, OpenAI.analyzeTranscriptionContent transcription question r
             = Throw e)
  /\ (forall e,
         OpenAI.analyzeTranscriptionContent transcription question r = Throw e ->
         String.prefix "Falha ao analisar conteúdo: " (message e) = true)
  /\ (forall a,
         OpenAI.analyzeTranscriptionContent transcription question r = Return a ->
         ToBoolean (answer a) = true).
Proof.
  destruct (malformed r) eqn:M.
  - destruct (analyze_on_malformed transcription question r M) as [e0 H].
    rewrite H. repeat split.
    + intros _. eexists; reflexivity.
    + intros e E; injection E as <-.
      exact (prefix_append "Falha ao analisar conteúdo: " _).
    + intros a E; discriminate E.
  - destruct (analyze_on_well_formed transcription question r M)
      as (a0 & H & Ha & _).
    rewrite H. repeat split.
    + intros E; discriminate E.
    + intros [e E]; discriminate E.
    + intros e E; discriminate E.
    + intros a E; injection E as <-; exact Ha.
Qed.

Import Routes Api.

Lemma detect_returns (text : value) (r : reply) :
  exists d,
    OpenAI.detectLanguageFromText text r = Return d
    /\ ToBoolean (language d) = true
    /\ ToBoolean (languageCode d) = true
    /\ (d_confidence d = nan \/ in_unit (d_confidence d) = true).
Proof.
  unfold OpenAI.detectLanguageFromText.
  reply_cases r; eexists;
    (split; [reflexivity | split; [ | split]]); simpl;
    try reflexivity; try (apply or_else_truthy; reflexivity);
    try (right; reflexivity);
    apply clamp_confidence_nan_or_unit; reflexivity.
Qed.

Lemma enhance_returns (text targetLanguage : value) (r : reply) :
  ToBoolean text = true ->
  exists e,
    OpenAI.enhanceTranscriptionText text targetLanguage r = Return e
    /\ ToBoolean (enhancedText e) = true
    /\ (e_confidence e = nan \/ in_unit (e_confidence e) = true).
Proof.
  intros Ht. unfold OpenAI.enhanceTranscriptionText.
  reply_cases r; eexists;
    (split; [reflexivity | split]); simpl;
    try assumption; try (apply or_else_truthy; assumption);
    try (right; reflexivity);
    apply clamp_confidence_nan_or_unit; reflexivity.
Qed.


(** X5: the route [/api/ai/summary] answers 400 without a request to the
    provider when the transcription is missing or falsy.  Otherwise it
    answers 200 with a summary that is never the empty text when the
    provider gives a message, and 500 when it does not, with the message
    of the failure behind "Falha ao gerar resumo: ". *)
Theorem summary_route_outcomes (req_body : list (string * value))
  (c : Summary.completion) :
  (ToBoolean (lookup "transcription" req_body) = false ->
   status (fst (post_ai_summary req_body c)) = 400
   /\ snd (post_ai_summary req_body c) = [])
  /\ (ToBoolean (lookup "transcription" req_body) = true ->
      snd (post_ai_summary req_body c)
      = [Summary.summary_call (lookup "transcription" req_body)]
      /\ (forall content,
             c = Summary.Message content ->
             status (fst (post_ai_summary req_body c)) = 200
             /\ exists t,
                 body (fst (post_ai_summary req_body c))
                 = VObj [("summary", VStr t)]
                 /\ t <> ""
                 /\ (forall t', content = Some t' -> t' <> "" -> t = t'))
      /\ ((forall content, c <> Summary.Message content) ->
          status (fst (post_ai_summary req_body c)) = 500
          /\ exists m,
              body (fst (post_ai_summary req_body c))
              = message_body (VStr m)
              /\ String.prefix "Falha ao gerar resumo: " m = true)).
Proof.
  unfold post_ai_summary. split; intros H; rewrite H; simpl.
  - split; reflexivity.
  - split; [destruct c; reflexivity | split].
    + intros content ->. simpl. split; [reflexivity | ].
      destruct content as [t | ]; simpl.
      * destruct (String.eqb t "") eqn:E.
        -- eexists; split; [reflexivity | split].
           ++ intros E'; discriminate E'.
           ++ intros t' E' Hne. injection E' as <-.
              apply String.eqb_eq in E. contradiction.
        -- exists t. split; [reflexivity | split].
           ++ intros ->. discriminate E.
           ++ intros t' E' _. injection E' as <-. reflexivity.
      * eexists; split; [reflexivity | split].
        -- intros E'; discriminate E'.
        -- intros t' E'; discriminate E'.
    + intros Hc. destruct c as [e | e | content];
        try (exfalso; apply (Hc content); reflexivity);
        (split; [reflexivity | ]); eexists;
        (split; [reflexivity
                | exact (prefix_append "Falha ao gerar resumo: " _)]).
Qed.



Lemma wire_confidence (x : number) :
  x = nan \/ in_unit x = true ->
  match wire (VNum x) with
  | VNull => True
  | VNum y => in_unit y = true
  | _ => False
  end.
Proof.
  intros [-> | H]; [exact I | ].
  destruct x; simpl; try exact I; try exact H; reflexivity.
Qed.

(** X7: the confidence the client receives in a 200 response of the
    analyze, detect-language and enhance routes is [null] or a number in
    [0,1], whatever the provider replied: a NaN does not survive the
    JSON encoding. *)
Theorem confidence_on_the_wire (req_body : list (string * value))
  (r : reply) :
  (status (fst (post_ai_analyze req_body r)) = 200 ->
   match field "confidence" (wire (body (fst (post_ai_analyze req_body r))))
   with
   | VNull => True
   | VNum x => in_unit x = true
   | _ => False
   end)
  /\ (status (fst (post_ai_detect_language req_body r)) = 200 ->
      match
        field "confidence"
          (wire (body (fst (post_ai_detect_language req_body r))))
      with
      | VNull => True
      | VNum x => in_unit x = true
      | _ => False
      end)
  /\ (status (fst (post_ai_enhance req_body r)) = 200 ->
      match
        field "confidence" (wire (body (fst (post_ai_enhance req_body r))))
      with
      | VNull => True
      | VNum x => in_unit x = true
      | _ => False
      end).
Proof.
  unfold post_ai_analyze, post_ai_detect_language, post_ai_enhance.
  split; [ | split].
  - destruct (negb (ToBoolean (lookup "transcription" req_body))
              || negb (ToBoolean (lookup "question" req_body)));
      [intros H; discriminate H | ].
    destruct (malformed r) eqn:M.
    + destruct (analyze_on_malformed (lookup "transcription" req_body)
                  (lookup "question" req_body) r M) as [m H].
      rewrite H. intros E; discriminate E.
    + destruct (analyze_on_well_formed (lookup "transcription" req_body)
                  (lookup "question" req_body) r M) as (a & H & _ & Hc).
      rewrite H. intros _. unfold analysis_body.
      pose proof (wire_confidence _ Hc) as W.
      destruct (answer a); exact W.
  - destruct (ToBoolean (lookup "text" req_body)) eqn:Ht; simpl;
      [ | intros H; discriminate H].
    destruct (detect_returns (lookup "text" req_body) r)
      as (d & H & _ & _ & Hc).
    rewrite H. intros _. unfold detection_body.
    pose proof (wire_confidence _ Hc) as W.
    destruct (language d); exact W.
  - destruct (ToBoolean (lookup "text" req_body)) eqn:Ht; simpl;
      [ | intros H; discriminate H].
    destruct (enhance_returns (lookup "text" req_body)
                (lookup "targetLanguage" req_body) r Ht)
      as (e & H & _ & Hc).
    rewrite H. intros _. unfold enhancement_body.
    pose proof (wire_confidence _ Hc) as W.
    destruct (enhancedText e); exact W.
Qed.

(* ================================================================== *)
(** * The hook and the routes together *)
(* ================================================================== *)

Import Client Hook.

Lemma enhance_on_malformed (text targetLanguage : value) (r : reply) :
  malformed r = true ->
  OpenAI.enhanceTranscriptionText text targetLanguage r
  = Return (unchanged_text text c_0_5).
Proof.
  unfold OpenAI.enhanceTranscriptionText.
  reply_cases r; intros H; try discriminate H; reflexivity.
Qed.

Lemma detect_on_malformed (text : value) (r : reply) :
  malformed r = true ->
  OpenAI.detectLanguageFromText text r = Return error_detection.
Proof.
  unfold OpenAI.detectLanguageFromText.
  reply_cases r; intros H; try discriminate H; reflexivity.
Qed.

Lemma nonempty_is_truthy (t : string) :
  t <> "" -> ToBoolean (VStr t) = true.
Proof.
  intros H. simpl. destruct (String.eqb t "") eqn:E; [ | reflexivity].
  apply String.eqb_eq in E. contradiction.
Qed.

(** X8: every request [onresult] fires is answered 200 by its route,
    whatever the provider does: the finalized text it carries is not
    empty, so the routes never reject it, and they never answer 500. *)
Theorem requests_of_onresult_are_accepted (rec : recognition) (ev : event)
  (s : session) (e : effect) (r : reply) :
  In e (snd (onresult rec ev s)) ->
  exists resp, route_response e r = Some resp /\ status resp = 200.
Proof.
  rewrite onresult_fires.
  destruct (String.eqb (finalTranscript ev) "") eqn:E; [intros [] | ].
  assert (Ht : ToBoolean (VStr (finalTranscript ev)) = true)
    by (simpl; rewrite E; reflexivity).
  intros [<- | H].
  - eexists; split; [reflexivity | ].
    unfold post_ai_detect_language. simpl lookup. rewrite Ht. simpl.
    destruct (detect_returns (VStr (finalTranscript ev)) r) as (d & Hd & _).
    rewrite Hd. reflexivity.
  - destruct (seen_enhancedMode rec
              && Nat.ltb 20 (JsString.length (finalTranscript ev)));
      [ | destruct H].
    destruct H as [<- | []].
    eexists; split; [reflexivity | ].
    unfold post_ai_enhance. simpl lookup. rewrite Ht. simpl.
    destruct (enhance_returns (VStr (finalTranscript ev))
                (VStr (seen_currentLanguage rec)) r Ht) as (x & Hx & _).
    rewrite Hx. reflexivity.
Qed.

Lemma requests_of_onresult_are_accepted_witness :
  In (DetectLanguage "bom dia")
     (snd (onresult (initializeRecognition initial)
             (Event 0 [Result "bom dia" true]) initial))
  /\ exists resp,
      route_response (DetectLanguage "bom dia") not_json = Some resp
      /\ status resp = 200.
Proof.
  split; [left; reflexivity | ].
  exact (requests_of_onresult_are_accepted (initializeRecognition initial)
           (Event 0 [Result "bom dia" true]) initial
           (DetectLanguage "bom dia") not_json (or_introl eq_refl)).
Defined.

(** X9: when the provider fails, the enhance route answers 200 with the
    segment it was sent as [enhancedText], and the hook's [onSuccess]
    then replaces the whole transcript by that segment, unless the
    segment is the transcript the callback closed over. *)
Theorem failed_enhancement_replaces_transcript
  (text targetLanguage seen : string) (r : reply) (s : session) :
  text <> "" -> text <> seen -> malformed r = true ->
  status
    (fst (post_ai_enhance
            [("text", VStr text); ("targetLanguage", VStr targetLanguage)] r))
  = 200
  /\ field "enhancedText"
       (wire (body (fst (post_ai_enhance
                           [("text", VStr text);
                            ("targetLanguage", VStr targetLanguage)] r))))
     = VStr text
  /\ transcript
       (enhance_onSuccess seen
          (as_text
             (field "enhancedText"
                (wire (body (fst (post_ai_enhance
                                    [("text", VStr text);
                                     ("targetLanguage", VStr targetLanguage)]
                                    r))))))
          s)
     = text.
Proof.
  intros Ht Hs M.
  unfold post_ai_enhance. simpl lookup.
  rewrite (nonempty_is_truthy text Ht). simpl negb. cbv iota.
  rewrite (enhance_on_malformed _ _ r M). simpl.
  repeat split.
  destruct (String.eqb text "") eqn:E1;
    [apply String.eqb_eq in E1; contradiction | ].
  destruct (String.eqb text seen) eqn:E2;
    [apply String.eqb_eq in E2; contradiction | ].
  reflexivity.
Qed.

Lemma failed_enhancement_replaces_transcript_witness :
  "e agora o segundo trecho" <> ""
  /\ "e agora o segundo trecho"
     <> "o primeiro trecho e agora o segundo trecho"
  /\ malformed not_json = true
  /\ transcript
       (enhance_onSuccess "o primeiro trecho e agora o segundo trecho"
          (as_text
             (field "enhancedText"
                (wire (body (fst (post_ai_enhance
                                    [("text", VStr "e agora o segundo trecho");
                                     ("targetLanguage", VStr "pt-BR")]
                                    not_json))))))
          initial)
     = "e agora o segundo trecho".
Proof.
  assert (H1 : "e agora o segundo trecho" <> "")
    by (intros H; discriminate H).
  assert (H2 : "e agora o segundo trecho"
               <> "o primeiro trecho e agora o segundo trecho")
    by (intros H; discriminate H).
  split; [exact H1 | split; [exact H2 | split; [reflexivity | ]]].
  exact (proj2 (proj2
           (failed_enhancement_replaces_transcript
              "e agora o segundo trecho" "pt-BR"
              "o primeiro trecho e agora o segundo trecho" not_json initial
              H1 H2 eq_refl))).
Defined.

(** X10: when the provider fails, the detect-language route answers 200
    and the hook's [onSuccess] shows "Erro na detecção" with confidence
    0; the code "unknown" is added to the detected languages and counted,
    unless the list the callback closed over holds it already. *)
Theorem failed_detection_is_displayed (text : string) (seen : list value)
  (r : reply) (s : session) :
  text <> "" -> malformed r = true ->
  status (fst (post_ai_detect_language [("text", VStr text)] r)) = 200
  /\ detectedLanguage
       (detect_onSuccess seen
          (wire (body (fst (post_ai_detect_language [("text", VStr text)] r))))
          s)
     = VStr "Erro na detecção"
  /\ confidence
       (detect_onSuccess seen
          (wire (body (fst (post_ai_detect_language [("text", VStr text)] r))))
          s)
     = VNum zero
  /\ (Hook.includes seen (VStr "unknown") = false ->
      detectedLanguages
        (detect_onSuccess seen
           (wire (body (fst (post_ai_detect_language [("text", VStr text)] r))))
           s)
      = (detectedLanguages s ++ [VStr "unknown"])%list
      /\ languageCount
           (detect_onSuccess seen
              (wire (body (fst (post_ai_detect_language
                                  [("text", VStr text)] r))))
              s)
         = (languageCount s + 1)%N)
  /\ (Hook.includes seen (VStr "unknown") = true ->
      detectedLanguages
        (detect_onSuccess seen
           (wire (body (fst (post_ai_detect_language [("text", VStr text)] r))))
           s)
      = detectedLanguages s).
Proof.
  intros Ht M.
  unfold post_ai_detect_language. simpl lookup.
  rewrite (nonempty_is_truthy text Ht). simpl negb. cbv iota.
  rewrite (detect_on_malformed _ r M). simpl.
  unfold detect_onSuccess. simpl.
  destruct (Hook.includes seen (VStr "unknown")); simpl;
    (split; [reflexivity | split; [reflexivity | split; [reflexivity | ]]]);
    split; intros Hi; try discriminate Hi; try split; reflexivity.
Qed.

Lemma failed_detection_is_displayed_witness :
  "bom dia" <> "" /\ malformed not_json = true
  /\ detectedLanguage
       (detect_onSuccess [VStr "pt-BR"]
          (wire (body (fst (post_ai_detect_language
                              [("text", VStr "bom dia")] not_json))))
          initial)
     = VStr "Erro na detecção".
Proof.
  assert (H1 : "bom dia" <> "") by (intros H; discriminate H).
  split; [exact H1 | split; [reflexivity | ]].
  exact (proj1 (proj2
           (failed_detection_is_displayed "bom dia" [VStr "pt-BR"] not_json
              initial H1 eq_refl))).
Defined.

(* ================================================================== *)
(** * Invariants of the session *)
(* ================================================================== *)

Lemma startRecording_is_fresh_closure (supported : bool) (s : session) :
  startRecording supported s = startRecordingFrom s supported s.
Proof. reflexivity. Qed.

(** A step either keeps the transcript and the word count, or sets the
    count to the words of the new transcript. *)
Lemma step_words (s s' : session) :
  step s s' ->
  (transcript s' = transcript s /\ wordCount s' = wordCount s)
  \/ wordCount s' = count_words (transcript s').
Proof.
  intros H; destruct H as
    [seen supported s | s | s | langCode s | s | s | rec ev s | aborted s
    | s | s | u s | seen data s | text s | seen t s | s].
  - left. unfold startRecordingFrom. destruct supported; split; reflexivity.
  - left. destruct s; unfold stopRecording; simpl.
    destruct timeIntervalRef0, audioLevelIntervalRef0; split; reflexivity.
  - right. reflexivity.
  - left. unfold switchLanguage. destruct (isRecording s); simpl;
      [ | split; reflexivity].
    destruct s; simpl.
    destruct timeIntervalRef0, audioLevelIntervalRef0; split; reflexivity.
  - left. split; reflexivity.
  - left. split; reflexivity.
  - right. reflexivity.
  - left. split; reflexivity.
  - left. destruct s; unfold onend; simpl.
    destruct timeIntervalRef0, audioLevelIntervalRef0; split; reflexivity.
  - left. split; reflexivity.
  - left. split; reflexivity.
  - left. unfold detect_onSuccess.
    destruct data; simpl; try (split; reflexivity);
      match goal with
      | |- context [if ?b then _ else _] =>
          destruct b; split; reflexivity
      end.
  - left. unfold detectLanguageFromTextFallback.
    repeat match goal with
           | |- context [if ?b then _ else _] => destruct b
           end; split; reflexivity.
  - unfold enhance_onSuccess. destruct t as [t | ]; [ | left; split; reflexivity].
    destruct (negb (String.eqb t "") && negb (String.eqb t seen));
      [right; reflexivity | left; split; reflexivity].
  - left. destruct s; unfold unmount; simpl.
    destruct timeIntervalRef0, audioLevelIntervalRef0; split; reflexivity.
Qed.

(** X11: in every state the session can reach, whatever the commands,
    recognizer events, timer ticks and responses, the word count is the
    number of words of the transcript. *)
Theorem word_count_matches_transcript (s : session) :
  reachable s -> wordCount s = count_words (transcript s).
Proof.
  induction 1 as [ | s s' _ IH Hstep].
  - reflexivity.
  - destruct (step_words s s' Hstep) as [[Ht Hw] | H].
    + rewrite Hw, Ht. exact IH.
    + exact H.
Qed.

Lemma word_count_matches_transcript_witness :
  reachable
    (fst (onresult (initializeRecognition initial)
            (Event 0 [Result "bom dia a todos" true]) initial))
  /\ wordCount
       (fst (onresult (initializeRecognition initial)
               (Event 0 [Result "bom dia a todos" true]) initial))
     = count_words "bom dia a todos".
Proof.
  assert (R : reachable
                (fst (onresult (initializeRecognition initial)
                        (Event 0 [Result "bom dia a todos" true]) initial))).
  { apply (reach_step initial); [apply reach_initial | apply step_onresult]. }
  split; [exact R | ].
  exact (word_count_matches_transcript _ R).
Defined.

Lemma step_languages (s s' : session) :
  step s s' ->
  (detectedLanguages s' = detectedLanguages s
   /\ languageCount s' = languageCount s)
  \/ (detectedLanguages s' = [VStr "pt-BR"] /\ languageCount s' = 1%N)
  \/ (exists c, detectedLanguages s' = (detectedLanguages s ++ [c])%list
                /\ languageCount s' = (languageCount s + 1)%N).
Proof.
  intros H; destruct H as
    [seen supported s | s | s | langCode s | s | s | rec ev s | aborted s
    | s | s | u s | seen data s | text s | seen t s | s].
  - left. unfold startRecordingFrom. destruct supported; split; reflexivity.
  - left. destruct s; unfold stopRecording; simpl.
    destruct timeIntervalRef0, audioLevelIntervalRef0; split; reflexivity.
  - right; left. split; reflexivity.
  - left. unfold switchLanguage. destruct (isRecording s); simpl;
      [ | split; reflexivity].
    destruct s; simpl.
    destruct timeIntervalRef0, audioLevelIntervalRef0; split; reflexivity.
  - left. split; reflexivity.
  - left. split; reflexivity.
  - left. split; reflexivity.
  - left. split; reflexivity.
  - left. destruct s; unfold onend; simpl.
    destruct timeIntervalRef0, audioLevelIntervalRef0; split; reflexivity.
  - left. split; reflexivity.
  - left. split; reflexivity.
  - unfold detect_onSuccess.
    destruct data; simpl; try (left; split; reflexivity);
      match goal with
      | |- context [if ?b then _ else _] =>
          destruct b;
          [ left; split; reflexivity
          | right; right; eexists; split; reflexivity ]
      end.
  - left. unfold detectLanguageFromTextFallback.
    repeat match goal with
           | |- context [if ?b then _ else _] => destruct b
           end; split; reflexivity.
  - left. unfold enhance_onSuccess. destruct t as [t | ]; [ | split; reflexivity].
    destruct (negb (String.eqb t "") && negb (String.eqb t seen));
      split; reflexivity.
  - left. destruct s; unfold unmount; simpl.
    destruct timeIntervalRef0, audioLevelIntervalRef0; split; reflexivity.
Qed.

(** X12: in every state the session can reach, the language count is the
    length of the list of detected languages, and that list starts with
    "pt-BR". *)
Theorem language_count_matches_list (s : session) :
  reachable s ->
  languageCount s = N.of_nat (List.length (detectedLanguages s))
  /\ exists rest, detectedLanguages s = VStr "pt-BR" :: rest.
Proof.
  induction 1 as [ | s s' _ [IH1 [rest IH2]] Hstep].
  - split; [reflexivity | exists []; reflexivity].
  - destruct (step_languages s s' Hstep)
      as [[Hl Hc] | [[Hl Hc] | [c [Hl Hc]]]]; rewrite Hl, Hc.
    + split; [exact IH1 | exists rest; exact IH2].
    + split; [reflexivity | exists []; reflexivity].
    + split.
      * rewrite IH1, length_app. simpl. lia.
      * exists (rest ++ [c])%list. rewrite IH2. reflexivity.
Qed.

Lemma language_count_matches_list_witness :
  reachable
    (detect_onSuccess [VStr "pt-BR"]
       (VObj [("language", VStr "Inglês"); ("languageCode", VStr "en-US")])
       initial)
  /\ languageCount
       (detect_onSuccess [VStr "pt-BR"]
          (VObj [("language", VStr "Inglês"); ("languageCode", VStr "en-US")])
          initial)
     = 2%N.
Proof.
  assert (R : reachable
                (detect_onSuccess [VStr "pt-BR"]
                   (VObj [("language", VStr "Inglês");
                          ("languageCode", VStr "en-US")])
                   initial)).
  { apply (reach_step initial); [apply reach_initial | apply step_detect]. }
  split; [exact R | ].
  exact (proj1 (language_count_matches_list _ R)).
Defined.

Lemma Forall_filter_keep {A} (P : A -> Prop) (f : A -> bool) (l : list A) :
  Forall P l -> Forall P (filter f l).
Proof.
  intros H. apply Forall_forall. intros x Hx. apply filter_In in Hx.
  rewrite Forall_forall in H. apply H. tauto.
Qed.

Lemma clear_if_set_fresh (r : option timer) (s : session) :
  timers_fresh s -> timers_fresh (clear_if_set r s).
Proof.
  intros (H1 & H2 & H3). destruct r as [id | ]; [ | repeat split; assumption].
  destruct s; unfold timers_fresh, clearInterval in *; simpl in *.
  repeat split; try assumption. apply Forall_filter_keep; assumption.
Qed.

Lemma stop_fresh (s : session) :
  timers_fresh s -> timers_fresh (fst (stopRecording s)).
Proof.
  intros (H1 & H2 & H3). destruct s; unfold timers_fresh in *; simpl in *.
  destruct timeIntervalRef0, audioLevelIntervalRef0; simpl;
    repeat split; try exact I; repeat apply Forall_filter_keep; assumption.
Qed.

Lemma start_fresh (seen : session) (supported : bool) (s : session) :
  timers_fresh s -> timers_fresh (fst (startRecordingFrom seen supported s)).
Proof.
  intros (H1 & H2 & H3). destruct supported; [ | repeat split; assumption].
  destruct s; unfold timers_fresh in *; simpl in *.
  repeat split; try lia.
  repeat constructor; try lia.
  eapply Forall_impl; [ | exact H1]. simpl. intros; lia.
Qed.

Lemma step_fresh (s s' : session) :
  step s s' -> timers_fresh s -> timers_fresh s'.
Proof.
  intros H; destruct H as
    [seen supported s | s | s | langCode s | s | s | rec ev s | aborted s
    | s | s | u s | seen data s | text s | seen t s | s]; intros F.
  - apply start_fresh; exact F.
  - apply stop_fresh; exact F.
  - exact F.
  - destruct F as (H1 & H2 & H3).
    destruct s; unfold switchLanguage, timers_fresh in *; simpl in *.
    destruct isRecording0; simpl;
      [destruct timeIntervalRef0, audioLevelIntervalRef0; simpl | ];
      repeat split; try exact I; try assumption;
      repeat apply Forall_filter_keep; assumption.
  - exact F.
  - exact F.
  - exact F.
  - exact F.
  - unfold onend. apply clear_if_set_fresh.
    apply (clear_if_set_fresh (timeIntervalRef s) (setIsRecording false s)).
    exact F.
  - exact F.
  - exact F.
  - unfold detect_onSuccess.
    destruct data; simpl; try exact F;
      match goal with
      | |- context [if ?b then _ else _] => destruct b; exact F
      end.
  - unfold detectLanguageFromTextFallback.
    repeat match goal with
           | |- context [if ?b then _ else _] => destruct b
           end; exact F.
  - unfold enhance_onSuccess. destruct t as [t | ]; [ | exact F].
    destruct (negb (String.eqb t "") && negb (String.eqb t seen)); exact F.
  - unfold unmount; simpl. apply clear_if_set_fresh.
    apply clear_if_set_fresh. exact F.
Qed.

Lemma reachable_fresh (s : session) : reachable s -> timers_fresh s.
Proof.
  induction 1 as [ | s s' _ IH Hstep].
  - repeat split. constructor.
  - exact (step_fresh s s' Hstep IH).
Qed.

(** X13: [startRecording] does not cancel the timers the refs hold.  In
    every state the session can reach, a timer that runs and is held by a
    ref still runs after the session is started again and then stopped:
    [stopRecording] only cancels the timers of the last start. *)
Theorem restart_orphans_running_timers (s : session) (id : timer) :
  reachable s ->
  timeIntervalRef s = Some id \/ audioLevelIntervalRef s = Some id ->
  In id (intervals s) ->
  In id (intervals (fst (stopRecording (fst (startRecording true s))))).
Proof.
  intros R Href Hin.
  destruct (reachable_fresh s R) as (F & _).
  rewrite Forall_forall in F. pose proof (F id Hin) as Hlt.
  destruct s; simpl in *.
  apply filter_In; split; [ | apply negb_true_iff, Pos.eqb_neq; lia].
  rewrite Pos.eqb_refl. simpl.
  destruct (Pos.succ next_timer0 =? next_timer0)%positive eqn:E; simpl.
  - apply Pos.eqb_eq in E. lia.
  - right. apply filter_In; split;
      [exact Hin | apply negb_true_iff, Pos.eqb_neq; lia].
Qed.

Lemma restart_orphans_running_timers_witness :
  reachable (fst (startRecording true initial))
  /\ (timeIntervalRef (fst (startRecording true initial)) = Some 1%positive
      \/ audioLevelIntervalRef (fst (startRecording true initial))
         = Some 1%positive)
  /\ In 1%positive (intervals (fst (startRecording true initial)))
  /\ In 1%positive
       (intervals
          (fst (stopRecording
                  (fst (startRecording true
                          (fst (startRecording true initial))))))).
Proof.
  assert (R : reachable (fst (startRecording true initial))).
  { apply (reach_step initial);
      [apply reach_initial | apply (step_start initial true initial)]. }
  assert (H : In 1%positive (intervals (fst (startRecording true initial))))
    by (right; left; reflexivity).
  split; [exact R | split; [left; reflexivity | split; [exact H | ]]].
  exact (restart_orphans_running_timers _ 1%positive R
           (or_introl eq_refl) H).
Defined.

(* ================================================================== *)
(** * Commands and events of the session, one against the other *)
(* ================================================================== *)

Lemma string_app_nil_r (t : string) : t ++ "" = t.
Proof. induction t as [ | c t IH]; simpl; [ | rewrite IH]; reflexivity. Qed.

Lemma string_app_assoc (a b c : string) : (a ++ b) ++ c = a ++ b ++ c.
Proof. induction a as [ | x a IH]; simpl; [ | rewrite IH]; reflexivity. Qed.




Lemma collect_joined (rs : list result) (finalT interimT : string) :
  collect rs finalT interimT
  = (finalT ++ joined (filter isFinal rs),
     interimT ++ joined (filter (fun r => negb (isFinal r)) rs)).
Proof.
  revert finalT interimT.
  induction rs as [ | r rs IH]; intros finalT interimT; simpl.
  - rewrite !string_app_nil_r. reflexivity.
  - destruct (isFinal r); simpl; rewrite IH, string_app_assoc; reflexivity.
Qed.

(** X15: [onresult] leaves in the buffer the transcript its recognizer
    closed over, then all the finalized parts of the event from
    [resultIndex] on, then all its interim parts: within an event the
    finalized text is moved before the interim text, in whatever order
    the recognizer listed the parts. *)
Theorem onresult_puts_final_parts_first (rec : recognition) (ev : event)
  (s : session) :
  transcript (fst (onresult rec ev s))
  = seen_transcript rec
    ++ joined (filter isFinal (skipn (resultIndex ev) (results ev)))
    ++ joined (filter (fun r => negb (isFinal r))
                 (skipn (resultIndex ev) (results ev)))
  /\ finalTranscript ev
     = joined (filter isFinal (skipn (resultIndex ev) (results ev))).
Proof.
  unfold onresult, finalTranscript, interimTranscript; simpl.
  rewrite collect_joined; simpl. split; reflexivity.
Qed.

(** X16: an event whose [resultIndex] is not below the number of its
    results carries no text: [onresult] sets the buffer back to the
    transcript its recognizer closed over and fires no request. *)
Theorem result_index_past_the_end (rec : recognition) (ev : event)
  (s : session) :
  List.length (results ev) <= resultIndex ev ->
  transcript (fst (onresult rec ev s)) = seen_transcript rec
  /\ wordCount (fst (onresult rec ev s)) = count_words (seen_transcript rec)
  /\ snd (onresult rec ev s) = [].
Proof.
  intros H. unfold onresult, finalTranscript, interimTranscript; simpl.
  rewrite (skipn_all2 _ H). simpl. rewrite string_app_nil_r.
  repeat split.
Qed.

Lemma result_index_past_the_end_witness :
  List.length (results (Event 1 [Result "bom dia" true]))
  <= resultIndex (Event 1 [Result "bom dia" true])
  /\ transcript
       (fst (onresult (initializeRecognition initial)
               (Event 1 [Result "bom dia" true])
               (setTranscript "bom dia" initial)))
     = "".
Proof.
  assert (H : List.length (results (Event 1 [Result "bom dia" true]))
              <= resultIndex (Event 1 [Result "bom dia" true]))
    by (simpl; lia).
  split; [exact H | ].
  exact (proj1 (result_index_past_the_end (initializeRecognition initial)
                  (Event 1 [Result "bom dia" true])
                  (setTranscript "bom dia" initial) H)).
Defined.

(** X23: a result event leaves no trace once the next one of the same
    recognizer has come: the session after two events is the session
    after the second alone, and an event delivered twice leaves the
    session as after the first delivery.  The buffer does not accumulate
    across the events of a recording. *)
Theorem onresult_overwrites_earlier_events (rec : recognition)
  (ev1 ev2 : event) (s : session) :
  fst (onresult rec ev2 (fst (onresult rec ev1 s))) = fst (onresult rec ev2 s)
  /\ fst (onresult rec ev1 (fst (onresult rec ev1 s)))
     = fst (onresult rec ev1 s)
  /\ snd (onresult rec ev2 (fst (onresult rec ev1 s)))
     = snd (onresult rec ev2 s).
Proof. repeat split. Qed.

Lemma drop_spaces_all (cs : list string) :
  forallb JsString.is_space cs = true -> JsString.drop_spaces cs = [].
Proof.
  induction cs as [ | c cs IH]; simpl; [reflexivity | ].
  intros H. apply andb_true_iff in H. destruct H as [Hc Hcs].
  rewrite Hc. apply IH. exact Hcs.
Qed.

(** X17: a text made of white space only has no words: [updateWordCount]
    sets the count to 0 on it. *)
Theorem blank_text_has_no_words (text : string) (s : session) :
  forallb JsString.is_space (JsString.chars text) = true ->
  count_words text = 0 /\ wordCount (updateWordCount text s) = 0.
Proof.
  intros H. unfold updateWordCount, count_words, JsString.trim; simpl.
  rewrite (drop_spaces_all _ H). split; reflexivity.
Qed.

Lemma blank_text_has_no_words_witness :
  forallb JsString.is_space (JsString.chars "   ") = true
  /\ count_words "   " = 0.
Proof.
  split; [reflexivity | ].
  exact (proj1 (blank_text_has_no_words "   " initial eq_refl)).
Defined.

(* ================================================================== *)
(** * The panels: the elapsed time and the question *)
(* ================================================================== *)

Lemma split_colon_digits (d : Decimal.uint) (b : string) :
  split_colon (NilEmpty.string_of_uint d ++ String ":" b)
  = Some (NilEmpty.string_of_uint d, b).
Proof.
  induction d as [ | d IH | d IH | d IH | d IH | d IH | d IH | d IH | d IH
                 | d IH | d IH]; simpl; try rewrite IH; reflexivity.
Qed.

Lemma split_colon_padded (d : Decimal.uint) (b : string) :
  split_colon (padStart2 (NilEmpty.string_of_uint d) ++ String ":" b)
  = Some (padStart2 (NilEmpty.string_of_uint d), b).
Proof.
  unfold padStart2.
  destruct (Nat.ltb (String.length (NilEmpty.string_of_uint d)) 2).
  - destruct (String.eqb (NilEmpty.string_of_uint d) ""); [reflexivity | ].
    simpl. rewrite split_colon_digits. reflexivity.
  - apply split_colon_digits.
Qed.

Lemma parse_padded (d : Decimal.uint) :
  exists d',
    NilEmpty.uint_of_string (padStart2 (NilEmpty.string_of_uint d)) = Some d'
    /\ N.of_uint d' = N.of_uint d.
Proof.
  unfold padStart2.
  destruct (Nat.ltb (String.length (NilEmpty.string_of_uint d)) 2).
  - destruct (String.eqb (NilEmpty.string_of_uint d) "") eqn:E.
    + apply String.eqb_eq in E.
      pose proof (NilEmpty.usu d) as U. rewrite E in U. simpl in U.
      injection U as <-. eexists; split; reflexivity.
    + simpl. rewrite NilEmpty.usu. simpl. eexists; split; reflexivity.
  - rewrite NilEmpty.usu. eexists; split; reflexivity.
Qed.

(** X18: for a count of seconds that a JavaScript number holds exactly
    (below 2^53), the display [formatTime] gives reads back as that
    count, so that two different counts are never shown alike. *)
Theorem format_time_reads_back (a b : N) :
  (a < 2 ^ 53)%N -> (b < 2 ^ 53)%N ->
  parseTime (formatTime a) = Some a
  /\ (formatTime a = formatTime b -> a = b).
Proof.
  intros _ _.
  assert (H : forall seconds, parseTime (formatTime seconds) = Some seconds).
  { intros n. unfold parseTime, formatTime, decimal.
    change (":" ++ padStart2 (NilEmpty.string_of_uint (N.to_uint (n mod 60))))
      with (String ":"%char
              (padStart2 (NilEmpty.string_of_uint (N.to_uint (n mod 60))))).
    rewrite split_colon_padded.
    destruct (parse_padded (N.to_uint (n / 60))) as (x & Hx & Ex).
    destruct (parse_padded (N.to_uint (n mod 60))) as (y & Hy & Ey).
    rewrite Hx, Hy, Ex, Ey, !DecimalN.Unsigned.of_to.
    f_equal. pose proof (N.div_mod n 60). lia. }
  split; [apply H | ].
  intros E. pose proof (H a) as Ha. rewrite E, H in Ha.
  injection Ha as ->. reflexivity.
Qed.

Lemma format_time_reads_back_witness :
  (75 < 2 ^ 53)%N /\ (3599 < 2 ^ 53)%N
  /\ parseTime (formatTime 75) = Some 75%N.
Proof.
  assert (H1 : (75 < 2 ^ 53)%N) by reflexivity.
  assert (H2 : (3599 < 2 ^ 53)%N) by reflexivity.
  split; [exact H1 | split; [exact H2 | ]].
  exact (proj1 (format_time_reads_back 75 3599 H1 H2)).
Defined.

(** X19: what [handleSubmitQuestion] posts is never rejected by the
    analyze route: it posts only a non-empty transcript with a question
    that is not blank, trimmed, and the route then sends the analyze
    request on exactly these two.  On a blank question or an empty
    transcript it posts nothing and warns. *)
Theorem submitted_question_passes_validation (question transcript : string)
  (r : reply) :
  match fst (handleSubmitQuestion question transcript) with
  | Some b =>
      JsString.trim question <> "" /\ transcript <> ""
      /\ status (fst (post_ai_analyze b r)) <> 400
      /\ snd (post_ai_analyze b r)
         = [OpenAI.analyze_call (VStr transcript)
              (VStr (JsString.trim question))]
  | None =>
      (JsString.trim question = "" \/ transcript = "")
      /\ snd (handleSubmitQuestion question transcript)
         = [Toast "Aviso"
              "Digite uma pergunta e certifique-se de que há conteúdo transcrito"
              true]
  end.
Proof.
  unfold handleSubmitQuestion.
  destruct (String.eqb (JsString.trim question) "") eqn:Eq'; simpl.
  - split; [left; apply String.eqb_eq; exact Eq' | reflexivity].
  - destruct (String.eqb transcript "") eqn:Et; simpl.
    + split; [right; apply String.eqb_eq; exact Et | reflexivity].
    + unfold post_ai_analyze. simpl. rewrite Eq', Et. simpl.
      split; [intros H; rewrite H in Eq'; discriminate Eq' | ].
      split; [intros H; rewrite H in Et; discriminate Et | ].
      destruct (OpenAI.analyzeTranscriptionContent _ _ r); simpl;
        split; try reflexivity; intros H; discriminate H.
Qed.

(** X20: the language shown follows the language set.  [switchLanguage]
    sets [currentLanguage] to the code it is given and shows its name,
    "Português (BR)" for a code it does not know.  The heuristic either
    leaves the session as it is or sets [currentLanguage] and shows the
    name [switchLanguage] shows for it; it never touches the transcript
    nor the list and count of detected languages, and applying it twice
    is applying it once. *)
Theorem shown_language_follows_current_language (text langCode : string)
  (s : session) :
  currentLanguage (fst (fst (switchLanguage langCode s))) = langCode
  /\ detectedLanguage (fst (fst (switchLanguage langCode s)))
     = VStr (display_name langCode)
  /\ (langCode <> "en-US" -> langCode <> "es-ES" ->
      display_name langCode = "Português (BR)")
  /\ (detectLanguageFromTextFallback text s = s
      \/ detectedLanguage (detectLanguageFromTextFallback text s)
         = VStr (display_name
                   (currentLanguage (detectLanguageFromTextFallback text s))))
  /\ transcript (detectLanguageFromTextFallback text s) = transcript s
  /\ detectedLanguages (detectLanguageFromTextFallback text s)
     = detectedLanguages s
  /\ languageCount (detectLanguageFromTextFallback text s) = languageCount s
  /\ detectLanguageFromTextFallback text
       (detectLanguageFromTextFallback text s)
     = detectLanguageFromTextFallback text s.
Proof.
  split; [ | split; [ | split]].
  - unfold switchLanguage. destruct s. simpl.
    destruct isRecording0; simpl; [ | reflexivity].
    destruct timeIntervalRef0, audioLevelIntervalRef0; reflexivity.
  - unfold switchLanguage. destruct s. simpl.
    destruct isRecording0; simpl; [ | reflexivity].
    destruct timeIntervalRef0, audioLevelIntervalRef0; reflexivity.
  - intros H1 H2. unfold display_name.
    destruct (String.eqb langCode "pt-BR"); [reflexivity | ].
    destruct (String.eqb langCode "en-US") eqn:E1;
      [apply String.eqb_eq in E1; contradiction | ].
    destruct (String.eqb langCode "es-ES") eqn:E2;
      [apply String.eqb_eq in E2; contradiction | ].
    reflexivity.
  - unfold detectLanguageFromTextFallback.
    repeat match goal with
           | |- context [if ?b then _ else _] => destruct b
           end;
      (split; [ first [left; reflexivity | right; reflexivity] | ]);
      repeat split.
Qed.

(* ================================================================== *)
(** * Sentiment and transcription *)
(* ================================================================== *)

Import Sentiment.

Lemma shr_1_nonneg (mrs : shr_record) :
  (0 <= shr_m mrs)%Z -> (0 <= shr_m (shr_1 mrs))%Z.
Proof.
  destruct mrs as [m r s]. destruct m as [ | p | p]; simpl; intros H;
    try destruct p; simpl; lia.
Qed.

Lemma iter_pos_keeps {A} (P : A -> Prop) (f : A -> A) :
  (forall x, P x -> P (f x)) ->
  forall p x, P x -> P (iter_pos f p x).
Proof.
  intros Hf. induction p as [p IH | p IH | ]; intros x Hx; simpl.
  - apply IH, IH, Hf, Hx.
  - apply IH, IH, Hx.
  - apply Hf, Hx.
Qed.

Lemma shr_fexp_nonneg (m e : Z) (l : location) :
  (0 <= m)%Z -> (0 <= shr_m (fst (shr_fexp prec emax m e l)))%Z.
Proof.
  intros H. unfold shr_fexp, shr.
  assert (H0 : (0 <= shr_m (shr_record_of_loc m l))%Z)
    by (destruct l as [ | [ | | ]]; exact H).
  destruct (fexp prec emax (Zdigits2 m + e) - e)%Z; simpl; try exact H0.
  apply (iter_pos_keeps (fun mrs => (0 <= shr_m mrs)%Z)); [ | exact H0].
  exact shr_1_nonneg.
Qed.

Lemma round_nearest_even_nonneg (m : Z) (l : location) :
  (0 <= m)%Z -> (0 <= round_nearest_even m l)%Z.
Proof.
  intros H. destruct l as [ | [ | | ]]; simpl; try exact H; try lia.
  destruct (Z.even m); lia.
Qed.

Lemma binary_round_aux_not_nan (sx : bool) (m e : Z) (l : location) :
  (0 <= m)%Z -> is_nan (binary_round_aux prec emax sx m e l) = false.
Proof.
  intros H. unfold binary_round_aux.
  pose proof (shr_fexp_nonneg m e l H) as H1.
  destruct (shr_fexp prec emax m e l) as [mrs' e']. simpl in H1.
  pose proof (shr_fexp_nonneg _ e' loc_Exact
                (round_nearest_even_nonneg _ (loc_of_shr_record mrs') H1))
    as H2.
  destruct (shr_fexp prec emax
              (round_nearest_even (shr_m mrs') (loc_of_shr_record mrs'))
              e' loc_Exact) as [mrs'' e'']. simpl in H2.
  destruct (shr_m mrs''); [reflexivity | | lia].
  destruct (e'' <=? emax - prec)%Z; reflexivity.
Qed.

Lemma binary_normalize_not_nan (m e : Z) (s : bool) :
  is_nan (binary_normalize prec emax m e s) = false.
Proof.
  destruct m as [ | p | p]; simpl; [reflexivity | | ];
    unfold binary_round;
    destruct (shl_align p e (fexp prec emax (Z.pos (digits2_pos p) + e)));
    apply binary_round_aux_not_nan; lia.
Qed.

Lemma Math_round_not_nan (x : number) :
  is_nan x = false -> is_nan (Math_round x) = false.
Proof.
  intros H. destruct x as [s | s | | s m e]; simpl; try exact H;
    try reflexivity.
  destruct (0 <=? e)%Z; [reflexivity | ].
  match goal with
  | |- context [if (?z =? 0)%Z then _ else _] => destruct (z =? 0)%Z
  end; [reflexivity | apply binary_normalize_not_nan].
Qed.

Lemma rating_in_range (x : number) :
  is_nan x = false -> in_rating (Math_max one (Math_min c_5 x)) = true.
Proof.
  intros Hx.
  assert (Hm : exists m, Math_min c_5 x = m /\ is_nan m = false
                         /\ SFleb m c_5 = true).
  { unfold Math_min. destruct (SFcompare c_5 x) as [c | ] eqn:E.
    - destruct c.
      + exists x. repeat split; auto.
        apply (SFleb_of_compare _ _ _ E); discriminate.
      + exists c_5. repeat split; reflexivity.
      + exists x. repeat split; auto.
        apply (SFleb_of_compare _ _ _ E); discriminate.
    - destruct x; simpl in *; discriminate. }
  destruct Hm as (m & -> & Hn & Hle).
  unfold Math_max, in_rating.
  destruct (SFcompare one m) as [c | ] eqn:E.
  - destruct c; simpl.
    + rewrite Hle. unfold SFleb. rewrite E. reflexivity.
    + rewrite Hle. unfold SFleb. rewrite E. reflexivity.
    + reflexivity.
  - destruct m; simpl in *; discriminate.
Qed.

(** X21: [analyzeSentiment] always returns a result.  Its rating is NaN
    or lies between 1 and 5, its confidence is NaN or lies in [0,1], and
    its sentiment is never empty; a rating that is a number, [null] or
    absent gives a rating between 1 and 5.  On a malformed or empty reply
    the result is the neutral one: rating 3, confidence 0.5, "neutro". *)
Theorem sentiment_is_bounded (text : value) (r : reply) :
  exists res,
    analyzeSentiment text r = Return res
    /\ (rating res = nan \/ in_rating (rating res) = true)
    /\ (s_confidence res = nan \/ in_unit (s_confidence res) = true)
    /\ ToBoolean (sentiment res) = true
    /\ (forall props,
           r = object_reply props ->
           numeric_or_missing (lookup "rating" props) = true ->
           in_rating (rating res) = true)
    /\ (forall props,
           r = object_reply props -> lookup "rating" props = VUndefined ->
           rating res = c_3)
    /\ (malformed r = true \/ r = Content Empty ->
        res = {| rating := c_3; s_confidence := c_0_5;
                 sentiment := VStr "neutro" |}).
Proof.
  assert (Hr : forall v,
             Math_max one
               (Math_min c_5 (Math_round (ToNumber (or_else v (VNum c_3)))))
             = nan
             \/ in_rating
                  (Math_max one
                     (Math_min c_5
                        (Math_round (ToNumber (or_else v (VNum c_3))))))
                = true).
  { intros v.
    destruct (is_nan (ToNumber (or_else v (VNum c_3)))) eqn:E.
    - left. destruct (ToNumber (or_else v (VNum c_3))); try discriminate E.
      reflexivity.
    - right. apply rating_in_range, Math_round_not_nan. exact E. }
  assert (Hn : forall v,
             numeric_or_missing v = true ->
             in_rating
               (Math_max one
                  (Math_min c_5
                     (Math_round (ToNumber (or_else v (VNum c_3))))))
             = true).
  { intros v Hv. apply rating_in_range, Math_round_not_nan.
    unfold or_else.
    destruct v as [ | | b | x | t | l | o]; simpl in *; try discriminate;
      auto.
    destruct x; simpl in *; auto; discriminate. }
  unfold analyzeSentiment.
  destruct r as [e | e | [ | [e | v]]]; simpl.
  1, 2, 3, 4:
    eexists; split; [reflexivity | ];
    (split; [right; reflexivity | ]);
    (split; [right; reflexivity | ]);
    (split; [reflexivity | ]);
    (split; [intros props E; discriminate E | ]);
    (split; [intros props E; discriminate E | ]);
    intros _; reflexivity.
  destruct v as [ | | b | x | t | l | o]; simpl;
    (eexists; split; [reflexivity | ]); simpl.
  1, 2:
    (split; [right; reflexivity | ]);
    (split; [right; reflexivity | ]);
    (split; [reflexivity | ]);
    (split; [intros props E; discriminate E | ]);
    (split; [intros props E; discriminate E | ]);
    intros _; reflexivity.
  1, 2, 3, 4:
    (split; [right; reflexivity | ]);
    (split; [right; reflexivity | ]);
    (split; [reflexivity | ]);
    (split; [intros props E; discriminate E | ]);
    (split; [intros props E; discriminate E | ]);
    intros [E | E]; discriminate E.
  split; [apply Hr | ].
  split; [apply clamp_confidence_nan_or_unit; reflexivity | ].
  split; [apply or_else_truthy; reflexivity | ].
  split; [intros props E; injection E as <-; apply Hn | ].
  split; [intros props E H; injection E as <-; rewrite H; reflexivity | ].
  intros [E | E]; discriminate E.
Qed.

(** X22: when [transcribeAudioWithAI] returns, its language is never
    empty (the language of the response, else the one asked for, else
    "pt") and its confidence is the constant 0.95; it throws exactly when
    the transcription call fails, with the message of the failure behind
    "Falha na transcrição por IA: ". *)
Theorem transcription_language_is_never_empty (language : value)
  (r : Whisper.transcription_reply) :
  (forall res,
      Whisper.transcribeAudioWithAI language r = Return res ->
      ToBoolean (Whisper.t_language res) = true
      /\ Whisper.t_confidence res = Whisper.c_0_95
      /\ Whisper.c_0_95 = StringToNumber "0.95")
  /\ (forall e,
         Whisper.transcribeAudioWithAI language r = Throw e ->
         exists e0,
           r = Whisper.Fails e0
           /\ message e = "Falha na transcrição por IA: " ++ message e0)
  /\ (forall text lang duration,
         r = Whisper.Verbose text lang duration ->
         exists res,
           Whisper.transcribeAudioWithAI language r = Return res
           /\ (ToBoolean lang = true -> Whisper.t_language res = lang)
           /\ (ToBoolean lang = false -> ToBoolean language = true ->
               Whisper.t_language res = language)).
Proof.
  unfold Whisper.transcribeAudioWithAI.
  destruct r as [e0 | text lang duration]; simpl.
  - split; [intros res H; discriminate H | split].
    + intros e H. injection H as <-. exists e0. split; reflexivity.
    + intros text lang duration H; discriminate H.
  - split; [ | split].
    + intros res H. injection H as <-. simpl.
      split; [ | split; [reflexivity | vm_compute; reflexivity]].
      apply or_else_truthy, or_else_truthy. reflexivity.
    + intros e H; discriminate H.
    + intros t l d H. injection H as <- <- <-.
      eexists; split; [reflexivity | ]. simpl. unfold or_else.
      split; intros H1; rewrite H1; [reflexivity | ].
      intros H2; rewrite H2; reflexivity.
Qed.
